(** * Haar: the HTTP middleware of [src/main.py]

    A shallow embedding of [http_middleware] (body-size guard, per-client
    rate limiter, response-header annotation, performance-monitor update)
    and of the exception handlers registered next to it, followed by the
    properties the specification states about them.

    Conventions.
    - Python [int] is [Z]; [str] is [string] (one character per byte, which
      is how header values reach the application); [bytes] is [list byte].
    - The middleware is written in a small monad [M] that threads the
      process-wide cache, collects the externally visible calls it makes
      (cache reads and writes, the downstream handler, the monitor) as a
      list of events, and either returns a value or raises an exception.
      State changes made before an exception is raised are kept, as in
      Python.
    - Clock readings ([time.perf_counter], the cache's notion of "now") are
      inputs of a run, collected in [Env]. *)

From Stdlib Require Import ZArith QArith Lqa Ascii String.
From Stdlib Require Import DecimalString DecimalPos DecimalZ.
From stdpp Require Import base option list strings gmap.

Local Open Scope string_scope.
Local Open Scope Z_scope.

(** ** Python built-ins used by the middleware *)

Module Py.

(** [str(n)] and [f"{n}"] for an [int]. *)
Definition str (n : Z) : string := NilZero.string_of_int (Z.to_int n).

(** Characters [int()] skips around the literal: the ASCII white space
    [\t \n \v \f \r] and space, and, past ASCII, the characters
    [str.isspace] accepts (NEL and NBSP in the one-byte range). *)
Definition isspace (a : ascii) : bool :=
  let n := Z.of_nat (nat_of_ascii a) in
  ((9 <=? n) && (n <=? 13)) || (n =? 32) || (n =? 133) || (n =? 160).

Definition digit_value (a : ascii) : option Z :=
  let n := Z.of_nat (nat_of_ascii a) in
  if (48 <=? n) && (n <=? 57) then Some (n - 48) else None.

Fixpoint skip_space (s : string) : string :=
  match s with
  | String a rest => if isspace a then skip_space rest else s
  | EmptyString => s
  end.

(** The digits of a base-10 literal: single underscores are allowed
    between digits only.  Returns the value, the number of digit
    characters and the unread rest. *)
Fixpoint scan_digits (s : string) (acc : Z) (digits : nat) (prev_digit : bool)
  : option (Z * nat * string) :=
  match s with
  | EmptyString => if prev_digit then Some (acc, digits, s) else None
  | String a rest =>
      match digit_value a with
      | Some d => scan_digits rest (acc * 10 + d) (S digits) true
      | None =>
          if Ascii.eqb a "_"%char
          then (if prev_digit then scan_digits rest acc digits false else None)
          else (if prev_digit then Some (acc, digits, s) else None)
      end
  end.

Definition split_sign (s : string) : Z * string :=
  match s with
  | String a rest =>
      if Ascii.eqb a "+"%char then (1, rest)
      else if Ascii.eqb a "-"%char then (-1, rest)
      else (1, s)
  | EmptyString => (1, s)
  end.

(** [int(s)] for a [str]: [None] stands for [ValueError].
    [max_str_digits] is [sys.get_int_max_str_digits()]: [0] switches the
    length limit off (also the behaviour of interpreters that have no
    such limit); the limit is only looked at above 640 digits. *)
Definition int (max_str_digits : nat) (s : string) : option Z :=
  let '(sign, s') := split_sign (skip_space s) in
  match scan_digits s' 0 0%nat false with
  | Some (v, digits, rest) =>
      match skip_space rest with
      | EmptyString =>
          if (640 <? digits)%nat && (0 <? max_str_digits)%nat
             && (max_str_digits <? digits)%nat
          then None
          else Some (sign * v)
      | String _ _ => None
      end
  | None => None
  end.

(** [s.lower()] on the ASCII letters (header names are ASCII). *)
Definition lower_char (a : ascii) : ascii :=
  let n := nat_of_ascii a in
  if (65 <=? n)%nat && (n <=? 90)%nat then ascii_of_nat (n + 32) else a.

Fixpoint lower (s : string) : string :=
  match s with
  | String a rest => String (lower_char a) (lower rest)
  | EmptyString => EmptyString
  end.

(** Truthiness of an optional string: [None] and the empty string are falsy. *)
Definition truthy_str (o : option string) : bool :=
  match o with
  | Some (String _ _) => true
  | _ => false
  end.

End Py.

(** ** Data model *)

Abbreviation bytes := (list Byte.byte).

(** A header list as Starlette keeps it: pairs of name and value in order,
    names in lower case; duplicates are possible. *)
Abbreviation Headers := (list (string * string)).

(** The parts of a [Request] the middleware touches. *)
Record Request := {
  path : string;            (* request.url.path *)
  req_headers : Headers;    (* request.headers *)
  client_host : string;     (* request.client.host *)
  stream : list bytes;      (* the chunks request.stream() yields *)
  _body : option bytes      (* request._body, once set *)
}.

Record Response := {
  status_code : Z;
  headers : Headers;
  body : bytes
}.

(** Values of the [detail] payload of an [HTTPException]. *)
Inductive PyVal :=
| PStr (s : string)
| PInt (n : Z).

Inductive Detail :=
| DetailStr (s : string)
| DetailDict (d : list (string * PyVal)).

(** Exceptions that cross the middleware.  [OtherError] stands for anything
    a downstream handler lets escape. *)
Inductive Exn :=
| HTTPException (status : Z) (detail : Detail) (hdrs : option Headers)
| ValueError (literal : string)
| OtherError (name : string).

(** [src.constants.Constants]: the three settings the middleware reads. *)
Record Config := {
  MAX_BODY_SIZE : Z;
  MAX_REQUESTS : Z;
  WINDOW : Z
}.

(** Clock readings taken during one run of the middleware. *)
Record Env := {
  now : Q;          (* the cache's clock when get and set run *)
  perf_start : Q;   (* time.perf_counter() on entry *)
  perf_end : Q      (* time.perf_counter() after the handler returned *)
}.

(** *** Header lists *)

(** [d[key]] on a dict literal kept as an association list. *)
Fixpoint dict_get {V : Type} (d : list (string * V)) (key : string) : option V :=
  match d with
  | [] => None
  | (k, v) :: rest => if String.eqb k key then Some v else dict_get rest key
  end.

(** [request.headers.get(key)]: the first value stored under the
    lower-cased name. *)
Definition headers_get (hs : Headers) (key : string) : option string :=
  dict_get hs (Py.lower key).

(** [response.headers[key] = value] (MutableHeaders.__setitem__): the first
    entry of that name is overwritten and later ones dropped; a new name
    is appended. *)
Definition drop_key (k : string) (hs : Headers) : Headers :=
  List.filter (fun kv => negb (String.eqb (fst kv) k)) hs.

Fixpoint replace_first (k v : string) (hs : Headers) : option Headers :=
  match hs with
  | [] => None
  | (k', v') :: rest =>
      if String.eqb k' k then Some ((k, v) :: drop_key k rest)
      else option_map (cons (k', v')) (replace_first k v rest)
  end.

Definition headers_set (hs : Headers) (key value : string) : Headers :=
  let k := Py.lower key in
  match replace_first k value hs with
  | Some hs' => hs'
  | None => hs ++ [(k, value)]
  end.

(** ** The expiring cache *)

Record CacheEntry := {
  value : Z;
  expires_at : Q
}.

Abbreviation Cache := (gmap string CacheEntry).

(** Modelled from the spec: [src/cache.py] ([RedisLikeCache]) is not part
    of the sources.  One process-wide mapping from keys to entries with a
    deadline; [get] treats an entry whose deadline has passed as absent;
    [set] overwrites the entry and puts its deadline [ttl] seconds after
    the current time.  Rate-limit keys only ever hold integers. *)
Definition cache_get (c : Cache) (t : Q) (key : string) : option Z :=
  match c !! key with
  | Some e => if Qle_bool (expires_at e) t then None else Some (value e)
  | None => None
  end.

Definition cache_set (c : Cache) (t : Q) (key : string) (v : Z) (ttl : Z) : Cache :=
  <[key := {| value := v; expires_at := (t + inject_Z ttl)%Q |}]> c.

(** ** Effects *)

(** The calls a run of the middleware makes on its collaborators. *)
Inductive Event :=
| CacheGet (key : string)
| CacheSet (key : string) (v : Z) (ttl : Z)
| CallNext (request : Request)
| IncrementRequest (response_time_ms : Q).

Record Run (A : Type) := MkRun {
  cache_after : Cache;
  events : list Event;
  outcome : Exn + A
}.
Arguments MkRun {A} _ _ _.
Arguments cache_after {A} _.
Arguments events {A} _.
Arguments outcome {A} _.

Definition M (A : Type) : Type := Cache -> Run A.

Definition ret {A} (a : A) : M A := fun c => MkRun c [] (inr a).

Definition raise {A} (e : Exn) : M A := fun c => MkRun c [] (inl e).

Definition bind {A B} (m : M A) (k : A -> M B) : M B :=
  fun c =>
    let r := m c in
    match outcome r with
    | inl e => MkRun (cache_after r) (events r) (inl e)
    | inr a =>
        let r' := k a (cache_after r) in
        MkRun (cache_after r') (events r ++ events r') (outcome r')
    end.

Definition lift {A} (x : Exn + A) : M A := fun c => MkRun c [] x.

Notation "x <- m ;; k" := (bind m (fun x => k))
  (at level 100, m at next level, right associativity).
Notation "m ;;; k" := (bind m (fun _ => k))
  (at level 100, right associativity).

(** ** Exception handlers ([src/main.py], after the middleware)

    Each handler forwards to [log_service.log_and_build_response]; the
    arguments it passes are what is kept here. *)

Record ErrorReport := {
  error_level : string;
  report_status : Z;
  report_detail : Detail
}.

Definition http_exception_handler (status : Z) (detail : Detail) : ErrorReport :=
  {| error_level := if status <? 500 then "WARN" else "ERROR";
     report_status := status;
     report_detail := detail |}.

Definition global_exception_handler : ErrorReport :=
  {| error_level := "FATAL";
     report_status := 500;
     report_detail := DetailStr "Internal server error" |}.

(** The handler registered for the class of an exception:
    [StarletteHTTPException] has its own, every other [Exception] falls to
    the global one. *)
Definition exception_handler (e : Exn) : ErrorReport :=
  match e with
  | HTTPException status detail _ => http_exception_handler status detail
  | ValueError _ => global_exception_handler
  | OtherError _ => global_exception_handler
  end.

(** ** The middleware *)

(** [Constants], the interpreter's digit limit for [int()], and the
    collaborators whose code lies outside [src/main.py]. *)
Class Deployment := {
  Constants : Config;
  max_str_digits : nat;                                  (* sys.get_int_max_str_digits() *)
  get_client_identifier : Request -> string;             (* util.get_client_identifier *)
  call_next : Request -> Exn + Response;                 (* the downstream handler chain *)
  add_security_headers : Request -> Response -> Response; (* middleware.add_security_headers *)
  format_2f : Q -> string                                (* f"{x:.2f}" *)
}.

Section Middleware.

Context {app : Deployment}.

(** [request.url.path in ["/docs", "/redoc", "/openapi.json"]] *)
Definition bypass_paths : list string := ["/docs"; "/redoc"; "/openapi.json"].

Definition bypass_path (p : string) : bool :=
  existsb (String.eqb p) bypass_paths.

(** *** Body size check *)

Definition too_large : Exn :=
  HTTPException 413
    (DetailStr ("Request entity too large. Max allowed: "
                ++ Py.str (MAX_BODY_SIZE Constants) ++ " bytes"))
    None.

(** The [async for chunk in request.stream()] loop. *)
Fixpoint read_stream (chunks : list bytes) (body : bytes) : Exn + bytes :=
  match chunks with
  | [] => inr body
  | chunk :: rest =>
      let body := (body ++ chunk)%list in
      if Z.of_nat (length body) >? MAX_BODY_SIZE Constants
      then inl too_large
      else read_stream rest body
  end.

Definition set_body (request : Request) (b : bytes) : Request :=
  {| path := path request; req_headers := req_headers request;
     client_host := client_host request; stream := stream request;
     _body := Some b |}.

Definition body_size_check (request : Request) : Exn + Request :=
  let content_length := headers_get (req_headers request) "content-length" in
  if Py.truthy_str content_length then
    let literal := default EmptyString content_length in
    match Py.int max_str_digits literal with
    | None => inl (ValueError literal)
    | Some n =>
        if n >? MAX_BODY_SIZE Constants then inl too_large else inr request
    end
  else
    match read_stream (stream request) [] with
    | inl e => inl e
    | inr body => inr (set_body request body)
    end.

(** *** Rate limit check *)

Definition rate_limit_key (identifier : string) : string :=
  "rate_limit:" ++ identifier.

Definition get (t : Q) (key : string) : M (option Z) :=
  fun c => MkRun c [CacheGet key] (inr (cache_get c t key)).

Definition set (t : Q) (key : string) (v ttl : Z) : M unit :=
  fun c => MkRun (cache_set c t key v ttl) [CacheSet key v ttl] (inr tt).

(** [(current + 1) if current else 1]: [None] and [0] are falsy. *)
Definition next_value (current : option Z) : Z :=
  match current with
  | Some n => if n =? 0 then 1 else n + 1
  | None => 1
  end.

Definition too_many_requests : Exn :=
  HTTPException 429
    (DetailDict
       [("error", PStr "Too many requests");
        ("message", PStr "Rate limit exceeded. Try again in 60 seconds.");
        ("retry_after", PStr (Py.str (WINDOW Constants)));
        ("limit", PInt (MAX_REQUESTS Constants));
        ("window", PInt (WINDOW Constants))])
    (Some
       [("Retry-After", Py.str (WINDOW Constants));
        ("X-RateLimit-Limit", Py.str (MAX_REQUESTS Constants));
        ("X-RateLimit-Remaining", "0");
        ("X-RateLimit-Reset", Py.str (WINDOW Constants))]).

(** Lines 146-173: returns the value of [current] after the check. *)
Definition rate_limit_check (env : Env) (request : Request) : M Z :=
  let identifier := get_client_identifier request in
  let key := rate_limit_key identifier in
  current <- get (now env) key ;;
  let new_value := next_value current in
  if new_value >? MAX_REQUESTS Constants then raise too_many_requests
  else
    set (now env) key new_value (WINDOW Constants) ;;;
    ret new_value.

(** *** Handler, headers, monitor *)

Definition await_call_next (request : Request) : M Response :=
  fun c => MkRun c [CallNext request] (call_next request).

Definition increment_request (response_time_ms : Q) : M unit :=
  fun c => MkRun c [IncrementRequest response_time_ms] (inr tt).

Definition set_header (response : Response) (key v : string) : Response :=
  {| status_code := status_code response;
     headers := headers_set (headers response) key v;
     body := body response |}.

(** Lines 178-181. *)
Definition rate_limit_headers (current : Z) (response : Response) : Response :=
  let remaining := Z.max (MAX_REQUESTS Constants - current) 0 in
  let response := set_header response "X-RateLimit-Limit" (Py.str (MAX_REQUESTS Constants)) in
  let response := set_header response "X-RateLimit-Remaining" (Py.str remaining) in
  set_header response "X-RateLimit-Reset" (Py.str (WINDOW Constants)).

Definition http_middleware (env : Env) (request : Request) : M Response :=
  if bypass_path (path request) then
    response <- await_call_next request ;;
    ret response
  else
    let start_time := perf_start env in
    (* Body size check *)
    request <- lift (body_size_check request) ;;
    (* Rate limit check *)
    current <- rate_limit_check env request ;;
    (* Headers *)
    response <- await_call_next request ;;
    let response := rate_limit_headers current response in
    let response := add_security_headers request response in
    let response_time_ms := ((perf_end env - start_time) * 1000)%Q in
    let response := set_header response "X-Response-Time"
                      (format_2f response_time_ms ++ "ms") in
    (* System Monitor *)
    increment_request response_time_ms ;;;
    ret response.

(** Requests served one after the other on the shared cache; each comes
    with its own clock readings.  (Between [cache.get] and [cache.set]
    the middleware never awaits, so a request's cache accesses are not
    interleaved with another's.) *)
Fixpoint serve (rs : list (Env * Request)) (c : Cache) : list (Run Response) :=
  match rs with
  | [] => []
  | (env, request) :: rest =>
      let r := http_middleware env request c in
      r :: serve rest (cache_after r)
  end.


(** *** Vocabulary for the properties *)

(** The identifier under which the rate limiter counts a request, when
    the request gets that far (not a documentation path, size check
    passed). *)
Definition limiter_identifier (request : Request) : option string :=
  if bypass_path (path request) then None
  else match body_size_check request with
       | inl _ => None
       | inr request' => Some (get_client_identifier request')
       end.

(** The request is turned down by the size check with a 413. *)
Definition size_rejected (request : Request) : bool :=
  negb (bypass_path (path request))
  && match body_size_check request with
     | inl (HTTPException status _ _) => status =? 413
     | _ => false
     end.

(** The request reaches the rate check and the incremented count is over
    the limit. *)
Definition rate_rejected (env : Env) (request : Request) (c : Cache) : bool :=
  match limiter_identifier request with
  | Some identifier =>
      next_value (cache_get c (now env) (rate_limit_key identifier))
      >? MAX_REQUESTS Constants
  | None => false
  end.

Definition is_call_next (ev : Event) : bool :=
  match ev with CallNext _ => true | _ => false end.

Definition is_increment_request (ev : Event) : bool :=
  match ev with IncrementRequest _ => true | _ => false end.

Definition is_cache_set (ev : Event) : bool :=
  match ev with CacheSet _ _ _ => true | _ => false end.

(** Every request arrives less than [WINDOW] seconds after the one
    before it ([prev] is the arrival time of the one before the first). *)
Fixpoint gaps_below_window (prev : Q) (rs : list (Env * Request)) : bool :=
  match rs with
  | [] => true
  | (env, _) :: rest =>
      negb (Qle_bool (prev + inject_Z (WINDOW Constants)) (now env))
      && gaps_below_window (now env) rest
  end.

Definition steady (rs : list (Env * Request)) : bool :=
  match rs with
  | [] => true
  | (env, _) :: rest => gaps_below_window (now env) rest
  end.

(** The cache holds no live counter under [key] when the first request
    of [rs] arrives. *)
Definition fresh_window (c : Cache) (key : string) (rs : list (Env * Request)) : bool :=
  match rs with
  | [] => true
  | (env, _) :: _ =>
      match cache_get c (now env) key with None => true | Some _ => false end
  end.

(** Fields of a raised [HTTPException]. *)
Definition detail_field (e : Exn) (key : string) : option PyVal :=
  match e with
  | HTTPException _ (DetailDict d) _ => dict_get d key
  | _ => None
  end.

Definition exception_header (e : Exn) (key : string) : option string :=
  match e with
  | HTTPException _ _ (Some hs) => dict_get hs key
  | _ => None
  end.

Definition exception_status (e : Exn) : option Z :=
  match e with
  | HTTPException status _ _ => Some status
  | _ => None
  end.

(** A header of the response a run returned. *)
Definition response_header (r : Run Response) (key : string) : option string :=
  match outcome r with
  | inr response => headers_get (headers response) key
  | inl _ => None
  end.

Definition raised (r : Run Response) : option Exn :=
  match outcome r with
  | inl e => Some e
  | inr _ => None
  end.

(** The downstream handler answers the request with a response. *)
Definition handler_returns (request : Request) : bool :=
  match body_size_check request with
  | inr request' =>
      match call_next request' with inr _ => true | inl _ => false end
  | inl _ => false
  end.

(** [add_security_headers] leaves the rate-limit headers as they are. *)
Definition keeps_rate_limit_headers : Prop :=
  forall (request : Request) (response : Response) (key : string),
    In key ["X-RateLimit-Limit"; "X-RateLimit-Remaining"; "X-RateLimit-Reset"] ->
    headers_get (headers (add_security_headers request response)) key
    = headers_get (headers response) key.

(** The response an allowed request ends with (lines 178-185). *)
Definition annotated (env : Env) (request : Request) (current : Z)
           (response : Response) : Response :=
  set_header
    (add_security_headers request (rate_limit_headers current response))
    "X-Response-Time"
    (format_2f ((perf_end env - perf_start env) * 1000)%Q ++ "ms").


(** *** Vocabulary for the properties of whole runs *)

(** The cache once every request of [rs] has been served. *)
Definition served_cache (rs : list (Env * Request)) (c : Cache) : Cache :=
  default c (cache_after <$> last (serve rs c)).

(** How many times the downstream handler was called in [runs]. *)
Definition handler_calls (runs : list (Run Response)) : nat :=
  length (List.filter is_call_next (concat (map events runs))).

(** Every counter kept in the cache lies between 1 and [MAX_REQUESTS]. *)
Definition counters_in_range (c : Cache) : Prop :=
  map_Forall (fun (_ : string) (e : CacheEntry) =>
                1 <= value e <= MAX_REQUESTS Constants) c.

(** A cache write stores a counter between 1 and [MAX_REQUESTS] with a
    time to live of [WINDOW]. *)
Definition write_in_range (ev : Event) : Prop :=
  match ev with
  | CacheSet _ v ttl => 1 <= v <= MAX_REQUESTS Constants /\ ttl = WINDOW Constants
  | _ => True
  end.

(** Every request of [rs] arrives at [t0] or later, and less than
    [WINDOW] seconds after [t0]. *)
Definition within_window_of (t0 : Q) (rs : list (Env * Request)) : bool :=
  forallb (fun er => Qle_bool t0 (now (fst er))
                     && negb (Qle_bool (t0 + inject_Z (WINDOW Constants)) (now (fst er))))
          rs.

(** All of [rs] arrive within one window that opens with the first. *)
Definition burst (rs : list (Env * Request)) : bool :=
  match rs with
  | [] => true
  | (env, _) :: _ => within_window_of (now env) rs
  end.

(** Every request of [rs] arrives before the deadline [d]. *)
Definition before (d : Q) (rs : list (Env * Request)) : bool :=
  forallb (fun er => negb (Qle_bool d (now (fst er)))) rs.


(** Bytes a stream delivers in all. *)
Definition total_size (chunks : list bytes) : Z :=
  Z.of_nat (length (concat chunks)).

(** How many entries of a header list carry the name [key]. *)
Definition header_count (hs : Headers) (key : string) : nat :=
  length (List.filter (fun kv => String.eqb (fst kv) (Py.lower key)) hs).

(** A write of the counter kept under [key]. *)
Definition is_write_to (key : string) (ev : Event) : bool :=
  match ev with
  | CacheSet k _ _ => String.eqb k key
  | _ => false
  end.

(** How many times the counter under [key] was written in [runs]. *)
Definition writes_to (key : string) (runs : list (Run Response)) : nat :=
  length (List.filter (is_write_to key) (concat (map events runs))).

(** The requests of [rs] that the rate limiter counts under [id]. *)
Definition counted_under (id : string) (rs : list (Env * Request))
  : list (Env * Request) :=
  List.filter (fun er => bool_decide (limiter_identifier (snd er) = Some id)) rs.

(** The names written by lines 179-181. *)
Definition rate_limit_header_names : list string :=
  ["X-RateLimit-Limit"; "X-RateLimit-Remaining"; "X-RateLimit-Reset"].

End Middleware.

(** ** Sample deployments, used to run the middleware on concrete input *)

Module Sample.

Definition constants (max_requests window : Z) : Config :=
  {| MAX_BODY_SIZE := 1024; MAX_REQUESTS := max_requests; WINDOW := window |}.

Definition identify (request : Request) : string := client_host request.

Definition ok_response : Response :=
  {| status_code := 200;
     headers := [("content-type", "application/json")];
     body := [] |}.

Definition handler (request : Request) : Exn + Response := inr ok_response.

Definition security (request : Request) (response : Response) : Response :=
  {| status_code := status_code response;
     headers := headers response ++ [("x-content-type-options", "nosniff")];
     body := body response |}.

Definition two_decimals (x : Q) : string := "0.00".

(** A deployment with [MAX_BODY_SIZE] = 1024 and the given limit and
    window. *)
Definition app (max_requests window : Z) : Deployment :=
  {| Constants := constants max_requests window;
     max_str_digits := 4300;
     get_client_identifier := identify;
     call_next := handler;
     add_security_headers := security;
     format_2f := two_decimals |}.

Definition request (p : string) (hs : Headers) : Request :=
  {| path := p; req_headers := hs; client_host := "10.0.0.1";
     stream := []; _body := None |}.

(** A small POST to [/shorten]. *)
Definition post : Request := request "/shorten" [("content-length", "10")].

Definition env (t : Q) : Env := {| now := t; perf_start := 0; perf_end := 0 |}.

Definition key : string := "rate_limit:10.0.0.1".

(** The same client posting at the given times. *)
Definition posts (times : list Q) : list (Env * Request) :=
  map (fun t => (env t, post)) times.

(** A cache in which the client's counter stands at [n], written at
    time 0 with a window of 60 seconds. *)
Definition counted (n : Z) : Cache := cache_set ∅ 0 key n 60.

(** A POST that declares a body of 1025 bytes, and one whose
    content-length is not a number. *)
Definition oversized : Request := request "/shorten" [("content-length", "1025")].
Definition malformed : Request := request "/shorten" [("content-length", "12abc")].

(** A POST without content-length whose body arrives in the given
    chunks. *)
Definition streamed (chunks : list bytes) : Request :=
  {| path := "/shorten"; req_headers := []; client_host := "10.0.0.1";
     stream := chunks; _body := None |}.

(** A POST from another client. *)
Definition post_from (host : string) : Request :=
  {| path := "/shorten"; req_headers := [("content-length", "10")];
     client_host := host; stream := []; _body := None |}.

Definition posts_from (host : string) (times : list Q) : list (Env * Request) :=
  map (fun t => (env t, post_from host)) times.

(** A POST that declares [declared] bytes while its stream delivers
    [chunks]. *)
Definition declaring (declared : string) (chunks : list bytes) : Request :=
  {| path := "/shorten"; req_headers := [("content-length", declared)];
     client_host := "10.0.0.1"; stream := chunks; _body := None |}.

(** Posts of 10.0.0.1 at 0, 2, 4 and 6 seconds, with a post of another
    client, an oversized post and a request for /docs in between. *)
Definition mixed : list (Env * Request) :=
  [(env 0, post); (env 1, post_from "10.0.0.2"); (env 2, post);
   (env 3, oversized); (env 4, post); (env 5, request "/docs" []);
   (env 6, post)].

(** A handler's response that already carries a rate-limit header,
    twice. *)
Definition own_headers : Response :=
  {| status_code := 201;
     headers := [("x-ratelimit-limit", "9"); ("vary", "Origin");
                 ("x-ratelimit-limit", "7")];
     body := [] |}.

End Sample.

Section Properties.

Context {app : Deployment}.

(** ** Properties *)

(** *** Header lists *)

Lemma dict_get_app {V : Type} (d1 d2 : list (string * V)) (key : string) :
  dict_get (d1 ++ d2) key
  = match dict_get d1 key with Some v => Some v | None => dict_get d2 key end.
Proof.
  induction d1 as [|[k v] d1 IH]; simpl; [reflexivity|].
  destruct (String.eqb k key); [reflexivity | exact IH].
Qed.

Lemma dict_get_drop_key_ne (hs : Headers) (k k2 : string) :
  k <> k2 -> dict_get (drop_key k hs) k2 = dict_get hs k2.
Proof.
  intros Hne. induction hs as [|[k' v'] hs IH]; simpl; [reflexivity|].
  destruct (String.eqb_spec k' k) as [->|Hk]; simpl.
  - destruct (String.eqb_spec k k2); [contradiction | exact IH].
  - destruct (String.eqb k' k2); [reflexivity | exact IH].
Qed.

Lemma replace_first_Some_eq (k v : string) (hs hs' : Headers) :
  replace_first k v hs = Some hs' -> dict_get hs' k = Some v.
Proof.
  revert hs'. induction hs as [|[k' v'] hs IH]; simpl; intros hs' H; [discriminate|].
  destruct (String.eqb_spec k' k) as [->|Hk].
  - inversion H; subst; simpl. now rewrite String.eqb_refl.
  - destruct (replace_first k v hs) as [hs0|]; simpl in H; [|discriminate].
    inversion H; subst; simpl.
    destruct (String.eqb_spec k' k); [contradiction | now apply IH].
Qed.

Lemma replace_first_Some_ne (k v k2 : string) (hs hs' : Headers) :
  replace_first k v hs = Some hs' -> k <> k2 -> dict_get hs' k2 = dict_get hs k2.
Proof.
  revert hs'. induction hs as [|[k' v'] hs IH]; simpl; intros hs' H Hne; [discriminate|].
  destruct (String.eqb_spec k' k) as [->|Hk].
  - inversion H; subst; simpl.
    destruct (String.eqb_spec k k2); [contradiction|].
    now apply dict_get_drop_key_ne.
  - destruct (replace_first k v hs) as [hs0|]; simpl in H; [|discriminate].
    inversion H; subst; simpl.
    destruct (String.eqb k' k2); [reflexivity | now apply IH].
Qed.

Lemma replace_first_None (k v : string) (hs : Headers) :
  replace_first k v hs = None -> dict_get hs k = None.
Proof.
  induction hs as [|[k' v'] hs IH]; simpl; intros H; [reflexivity|].
  destruct (String.eqb k' k); [discriminate|].
  destruct (replace_first k v hs); [discriminate | now apply IH].
Qed.

(** Reading back the header just written. *)
Lemma headers_get_set_eq (hs : Headers) (key v : string) :
  headers_get (headers_set hs key v) key = Some v.
Proof.
  unfold headers_get, headers_set.
  destruct (replace_first (Py.lower key) v hs) as [hs'|] eqn:E.
  - eapply replace_first_Some_eq; eassumption.
  - rewrite dict_get_app, (replace_first_None _ _ _ E). simpl.
    now rewrite String.eqb_refl.
Qed.

(** Writing one header leaves the others as they were. *)
Lemma headers_get_set_ne (hs : Headers) (key key' v : string) :
  Py.lower key <> Py.lower key' ->
  headers_get (headers_set hs key v) key' = headers_get hs key'.
Proof.
  intros Hne. unfold headers_get, headers_set.
  destruct (replace_first (Py.lower key) v hs) as [hs'|] eqn:E.
  - eapply replace_first_Some_ne; eassumption.
  - rewrite dict_get_app. destruct (dict_get hs (Py.lower key')); [reflexivity|].
    simpl. destruct (String.eqb_spec (Py.lower key) (Py.lower key')); [contradiction | reflexivity].
Qed.

(** *** [str] and [int] *)

Lemma to_int_proper (z : Z) :
  Z.to_int z <> Decimal.Pos Decimal.Nil /\ Z.to_int z <> Decimal.Neg Decimal.Nil.
Proof.
  destruct z as [|p|p]; simpl; split; try discriminate;
    intros [= H]; exact (DecimalPos.Unsigned.to_uint_nonnil p H).
Qed.

(** [str] is injective: different integers print differently. *)
Lemma str_inj (a b : Z) : Py.str a = Py.str b -> a = b.
Proof.
  unfold Py.str. intros H.
  apply (f_equal NilZero.int_of_string) in H.
  destruct (to_int_proper a) as [Ha1 Ha2], (to_int_proper b) as [Hb1 Hb2].
  rewrite !NilZero.isi in H by assumption.
  injection H as H.
  apply (f_equal Z.of_int) in H.
  now rewrite !DecimalZ.of_to in H.
Qed.

Lemma int_nonempty (m : nat) (s : string) (n : Z) :
  Py.int m s = Some n -> Py.truthy_str (Some s) = true.
Proof. destruct s; [discriminate | reflexivity]. Qed.

(** *** The four ways a run of the middleware goes *)

Lemma middleware_bypass (env : Env) (request : Request) (c : Cache) :
  bypass_path (path request) = true ->
  http_middleware env request c = MkRun c [CallNext request] (call_next request).
Proof.
  intros H. unfold http_middleware. rewrite H.
  unfold bind, await_call_next, ret; simpl.
  destruct (call_next request); reflexivity.
Qed.

Lemma middleware_size_check_raises (env : Env) (request : Request) (c : Cache) (e : Exn) :
  bypass_path (path request) = false ->
  body_size_check request = inl e ->
  http_middleware env request c = MkRun c [] (inl e).
Proof.
  intros Hp Hb. unfold http_middleware. rewrite Hp.
  unfold bind, lift; simpl. rewrite Hb. reflexivity.
Qed.

Lemma middleware_over_limit (env : Env) (request request' : Request) (c : Cache) :
  bypass_path (path request) = false ->
  body_size_check request = inr request' ->
  let key := rate_limit_key (get_client_identifier request') in
  next_value (cache_get c (now env) key) > MAX_REQUESTS Constants ->
  http_middleware env request c = MkRun c [CacheGet key] (inl too_many_requests).
Proof.
  intros Hp Hb key Hn. unfold http_middleware. rewrite Hp.
  unfold bind, lift, rate_limit_check, bind, get, raise; simpl. rewrite Hb; simpl.
  fold key. destruct (Z.gtb_spec (next_value (cache_get c (now env) key)) (MAX_REQUESTS Constants));
    [reflexivity | lia].
Qed.

Lemma middleware_within_limit (env : Env) (request request' : Request) (c : Cache) :
  bypass_path (path request) = false ->
  body_size_check request = inr request' ->
  let key := rate_limit_key (get_client_identifier request') in
  let n := next_value (cache_get c (now env) key) in
  n <= MAX_REQUESTS Constants ->
  http_middleware env request c
  = MkRun (cache_set c (now env) key n (WINDOW Constants))
      ([CacheGet key; CacheSet key n (WINDOW Constants); CallNext request']
       ++ match call_next request' with
          | inl _ => []
          | inr _ => [IncrementRequest ((perf_end env - perf_start env) * 1000)%Q]
          end)
      (match call_next request' with
       | inl e => inl e
       | inr response => inr (annotated env request' n response)
       end).
Proof.
  intros Hp Hb key n Hn. unfold http_middleware. rewrite Hp.
  unfold bind, lift, rate_limit_check, bind, get, set, raise, ret,
    await_call_next, increment_request; simpl.
  rewrite Hb; simpl. fold key. fold n.
  destruct (Z.gtb_spec n (MAX_REQUESTS Constants)); [lia|]. simpl.
  destruct (call_next request'); reflexivity.
Qed.

(** *** The cache *)

Lemma cache_get_set_eq (c : Cache) (t t' : Q) (key : string) (v ttl : Z) :
  cache_get (cache_set c t key v ttl) t' key
  = if Qle_bool (t + inject_Z ttl) t' then None else Some v.
Proof. unfold cache_get, cache_set. now rewrite lookup_insert_eq. Qed.

Lemma cache_get_set_ne (c : Cache) (t t' : Q) (key key' : string) (v ttl : Z) :
  key <> key' ->
  cache_get (cache_set c t key v ttl) t' key' = cache_get c t' key'.
Proof. intros H. unfold cache_get, cache_set. now rewrite lookup_insert_ne. Qed.

Lemma next_value_succ (n : Z) : 0 < n -> next_value (Some n) = n + 1.
Proof. intros H. unfold next_value. destruct (Z.eqb_spec n 0); [lia | reflexivity]. Qed.

(** *** Requests of one client served in a row *)

Lemma limiter_identifier_inv (request : Request) (id : string) :
  limiter_identifier request = Some id ->
  bypass_path (path request) = false
  /\ exists request', body_size_check request = inr request'
                      /\ get_client_identifier request' = id.
Proof.
  unfold limiter_identifier.
  destruct (bypass_path (path request)); [discriminate|].
  destruct (body_size_check request) as [e|request']; [discriminate|].
  intros [= <-]. eauto.
Qed.

(** While the count stays within the limit, the [i]-th request of a
    steady sequence runs on a cache in which the counter has advanced by
    one per earlier request. *)
Lemma serve_nth (id : string) (rs : list (Env * Request)) :
  forall (c : Cache) (n : Z) (i : nat) (env : Env) (request : Request),
    0 <= n ->
    Forall (fun er => limiter_identifier (snd er) = Some id) rs ->
    steady rs = true ->
    match rs with
    | [] => True
    | (e, _) :: _ => next_value (cache_get c (now e) (rate_limit_key id)) = n + 1
    end ->
    rs !! i = Some (env, request) ->
    n + Z.of_nat i <= MAX_REQUESTS Constants ->
    exists c',
      serve rs c !! i = Some (http_middleware env request c')
      /\ next_value (cache_get c' (now env) (rate_limit_key id)) = n + Z.of_nat i + 1.
Proof.
  induction rs as [|[e rq] rest IH]; intros c n i env request Hn Hall Hsteady Hhead Hi Hle.
  - discriminate.
  - destruct i as [|i]; simpl in Hi.
    + injection Hi as -> ->. exists c. split; [reflexivity|].
      rewrite Hhead. simpl. lia.
    + inversion Hall as [|? ? Hrq Hrest]; subst.
      destruct (limiter_identifier_inv _ _ Hrq) as (Hp & rq' & Hb & Hid).
      assert (Hrun : cache_after (http_middleware e rq c)
                     = cache_set c (now e) (rate_limit_key id) (n + 1) (WINDOW Constants)).
      { rewrite (middleware_within_limit e rq rq' c Hp Hb); rewrite Hid, Hhead.
        - reflexivity.
        - lia. }
      simpl serve. rewrite Hrun.
      destruct (IH (cache_set c (now e) (rate_limit_key id) (n + 1) (WINDOW Constants))
                   (n + 1) i env request) as (c' & Hc' & Hcount); try assumption; try lia.
      * simpl in Hsteady. destruct rest as [|[e2 rq2] rest2]; [reflexivity|].
        simpl in Hsteady. now apply andb_prop in Hsteady.
      * destruct rest as [|[e2 rq2] rest2]; [exact I|].
        simpl in Hsteady. apply andb_prop in Hsteady as [Hgap _].
        rewrite cache_get_set_eq.
        destruct (Qle_bool (now e + inject_Z (WINDOW Constants)) (now e2)); [discriminate|].
        rewrite next_value_succ; lia.
      * exists c'. split; [exact Hc'|]. lia.
Qed.

(** *** Rejections *)

Lemma read_stream_raises (chunks : list bytes) (b : bytes) (e : Exn) :
  read_stream chunks b = inl e -> e = too_large.
Proof.
  revert b. induction chunks as [|chunk rest IH]; simpl; intros b H; [discriminate|].
  destruct (Z.of_nat (length (b ++ chunk)) >? MAX_BODY_SIZE Constants).
  - now injection H as <-.
  - eapply IH; eassumption.
Qed.

Lemma middleware_size_rejected (env : Env) (request : Request) (c : Cache) :
  size_rejected request = true ->
  http_middleware env request c = MkRun c [] (inl too_large).
Proof.
  unfold size_rejected. intros H. apply andb_prop in H as [Hp Hb].
  apply negb_true_iff in Hp.
  destruct (body_size_check request) as [e|] eqn:E; [|discriminate].
  rewrite (middleware_size_check_raises env request c e Hp E). f_equal. f_equal.
  unfold body_size_check in E.
  destruct (Py.truthy_str _).
  - destruct (Py.int _ _) as [n|]; [|injection E as <-; discriminate].
    destruct (n >? MAX_BODY_SIZE Constants); [now injection E as <- | discriminate].
  - destruct (read_stream _ _) as [e'|] eqn:R; [|discriminate].
    injection E as <-. eapply read_stream_raises; eassumption.
Qed.

Lemma middleware_rate_rejected (env : Env) (request : Request) (c : Cache) :
  rate_rejected env request c = true ->
  exists id,
    limiter_identifier request = Some id
    /\ http_middleware env request c
       = MkRun c [CacheGet (rate_limit_key id)] (inl too_many_requests).
Proof.
  unfold rate_rejected.
  destruct (limiter_identifier request) as [id|] eqn:E; [|discriminate].
  intros H. exists id. split; [reflexivity|].
  destruct (limiter_identifier_inv _ _ E) as (Hp & rq' & Hb & <-).
  apply (middleware_over_limit env request rq' c Hp Hb).
  apply Z.gtb_lt in H. lia.
Qed.

(** C1: at most [MAX_REQUESTS] requests of one client, served while the
    cache keeps the counter alive (a fresh window at the first request,
    each later request less than [WINDOW] after the one before): none of
    them takes the 429 branch, each is handed to the downstream handler,
    and the counter computed and written back for the [i]-th of them
    (counting from 0) is [i + 1] - so 1 for the first and one more on
    every call. *)
Theorem requests_within_limit_are_counted
        (id : string) (rs : list (Env * Request)) (c : Cache) :
  Z.of_nat (length rs) <= MAX_REQUESTS Constants ->
  Forall (fun er => limiter_identifier (snd er) = Some id) rs ->
  fresh_window c (rate_limit_key id) rs = true ->
  steady rs = true ->
  forall (i : nat) (env : Env) (request : Request),
    rs !! i = Some (env, request) ->
    exists (c' : Cache) (request' : Request) (tail : list Event),
      serve rs c !! i = Some (http_middleware env request c')
      /\ rate_rejected env request c' = false
      /\ next_value (cache_get c' (now env) (rate_limit_key id)) = Z.of_nat i + 1
      /\ body_size_check request = inr request'
      /\ events (http_middleware env request c')
         = CacheGet (rate_limit_key id)
             :: CacheSet (rate_limit_key id) (Z.of_nat i + 1) (WINDOW Constants)
             :: CallNext request' :: tail.
Proof.
  intros Hlen Hall Hfresh Hsteady i env request Hi.
  assert (Hlt : (i < length rs)%nat) by (eapply lookup_lt_Some; eassumption).
  destruct (serve_nth id rs c 0 i env request) as (c' & Hserve & Hcount);
    try assumption; try lia.
  { destruct rs as [|[e rq] rest]; [exact I|]. simpl in Hfresh.
    destruct (cache_get c (now e) (rate_limit_key id)); [discriminate | reflexivity]. }
  assert (Hrq : limiter_identifier request = Some id).
  { rewrite Forall_forall in Hall. apply (Hall (env, request)).
    eapply list_elem_of_lookup_2; eassumption. }
  destruct (limiter_identifier_inv _ _ Hrq) as (Hp & rq' & Hb & Hid).
  rewrite Z.add_0_l in Hcount.
  exists c', rq'. eexists. split; [exact Hserve|]. split; [|split; [exact Hcount|split; [exact Hb|]]].
  - unfold rate_rejected. rewrite Hrq, Hcount, Z.gtb_ltb. apply Z.ltb_ge. lia.
  - rewrite (middleware_within_limit env request rq' c' Hp Hb); rewrite Hid, Hcount; [|lia].
    simpl. reflexivity.
Qed.

(** C2: when the count read for the client's key equals [MAX_REQUESTS],
    the middleware raises the 429 exception: its body has the fields
    error, message, retry_after, limit and window, its headers are
    Retry-After, X-RateLimit-Limit, X-RateLimit-Remaining (equal to "0")
    and X-RateLimit-Reset, and the downstream handler is not called. *)
Theorem count_at_limit_is_rejected
        (env : Env) (request : Request) (c : Cache) (id : string) :
  limiter_identifier request = Some id ->
  cache_get c (now env) (rate_limit_key id) = Some (MAX_REQUESTS Constants) ->
  let r := http_middleware env request c in
  exists (d : list (string * PyVal)) (hs : Headers),
    outcome r = inl (HTTPException 429 (DetailDict d) (Some hs))
    /\ map fst d = ["error"; "message"; "retry_after"; "limit"; "window"]
    /\ map fst hs = ["Retry-After"; "X-RateLimit-Limit";
                     "X-RateLimit-Remaining"; "X-RateLimit-Reset"]
    /\ dict_get hs "X-RateLimit-Remaining" = Some "0"
    /\ existsb is_call_next (events r) = false.
Proof.
  intros Hid Hget r.
  assert (Hrej : rate_rejected env request c = true).
  { unfold rate_rejected. rewrite Hid, Hget. unfold next_value.
    apply Z.gtb_lt. destruct (Z.eqb_spec (MAX_REQUESTS Constants) 0); lia. }
  destruct (middleware_rate_rejected env request c Hrej) as (id' & _ & Hrun).
  subst r. rewrite Hrun. do 2 eexists. split; [reflexivity|].
  repeat split.
Qed.

(** C3 (as amended): on a call where the incremented count exceeds
    [MAX_REQUESTS] the middleware raises the 429 exception without
    writing to the cache: [cache.set] is not called and the cache is
    left as it was, so the rejected request does not consume a slot. *)
Theorem rejected_request_writes_nothing
        (env : Env) (request : Request) (c : Cache) :
  rate_rejected env request c = true ->
  let r := http_middleware env request c in
  raised r = Some too_many_requests
  /\ existsb is_cache_set (events r) = false
  /\ cache_after r = c.
Proof.
  intros Hrej r.
  destruct (middleware_rate_rejected env request c Hrej) as (id & _ & Hrun).
  subst r. rewrite Hrun. repeat split.
Qed.

(** C4 (as amended): for every request rejected at the size check (413)
    or at the rate check (429), the downstream handler is not invoked
    and the monitor's [increment_request] is not called either: the
    exception leaves the middleware before the monitor update. *)
Theorem rejected_request_skips_handler_and_monitor
        (env : Env) (request : Request) (c : Cache) :
  size_rejected request = true \/ rate_rejected env request c = true ->
  let r := http_middleware env request c in
  (raised r = Some too_large \/ raised r = Some too_many_requests)
  /\ existsb is_call_next (events r) = false
  /\ existsb is_increment_request (events r) = false.
Proof.
  intros [Hsize|Hrate] r; subst r.
  - rewrite (middleware_size_rejected env request c Hsize). split; [now left|]. split; reflexivity.
  - destruct (middleware_rate_rejected env request c Hrate) as (id & _ & Hrun).
    rewrite Hrun. split; [now right|]. split; reflexivity.
Qed.

(** C5: the body-size check comes first.  A request (outside the
    documentation paths) whose content-length header holds an integer
    above [MAX_BODY_SIZE] is answered by the 413 exception, whose
    message names the byte limit, with no cache read or write, no call
    of the handler, and the cache - so also the client's counter -
    unchanged. *)
Theorem oversized_request_rejected_before_rate_limit
        (env : Env) (request : Request) (c : Cache) (declared : string) (n : Z) :
  bypass_path (path request) = false ->
  headers_get (req_headers request) "content-length" = Some declared ->
  Py.int max_str_digits declared = Some n ->
  n > MAX_BODY_SIZE Constants ->
  let r := http_middleware env request c in
  outcome r
  = inl (HTTPException 413
           (DetailStr ("Request entity too large. Max allowed: "
                       ++ Py.str (MAX_BODY_SIZE Constants) ++ " bytes"))
           None)
  /\ events r = []
  /\ cache_after r = c.
Proof.
  intros Hp Hcl Hint Hn r.
  assert (Hb : body_size_check request = inl too_large).
  { unfold body_size_check. rewrite Hcl, (int_nonempty _ _ _ Hint). simpl.
    rewrite Hint. destruct (Z.gtb_spec n (MAX_BODY_SIZE Constants)); [reflexivity | lia]. }
  subst r. rewrite (middleware_size_check_raises env request c _ Hp Hb).
  repeat split.
Qed.

(** *** Allowed requests *)

Lemma serve_length (rs : list (Env * Request)) (c : Cache) :
  length (serve rs c) = length rs.
Proof.
  revert c. induction rs as [|[e rq] rest IH]; intros c; simpl; [reflexivity|].
  now rewrite IH.
Qed.

Ltac distinct_names := vm_compute; discriminate.

Lemma annotated_headers (env : Env) (request : Request) (current : Z) (response : Response) :
  keeps_rate_limit_headers ->
  let hs := headers (annotated env request current response) in
  headers_get hs "X-RateLimit-Limit" = Some (Py.str (MAX_REQUESTS Constants))
  /\ headers_get hs "X-RateLimit-Remaining"
     = Some (Py.str (Z.max (MAX_REQUESTS Constants - current) 0))
  /\ headers_get hs "X-RateLimit-Reset" = Some (Py.str (WINDOW Constants)).
Proof.
  intros Hkeep hs. subst hs. unfold annotated, set_header; simpl.
  repeat split.
  - rewrite headers_get_set_ne by distinct_names.
    rewrite Hkeep by (simpl; tauto).
    unfold rate_limit_headers, set_header; simpl.
    rewrite !headers_get_set_ne by distinct_names.
    apply headers_get_set_eq.
  - rewrite headers_get_set_ne by distinct_names.
    rewrite Hkeep by (simpl; tauto).
    unfold rate_limit_headers, set_header; simpl.
    rewrite headers_get_set_ne by distinct_names.
    apply headers_get_set_eq.
  - rewrite headers_get_set_ne by distinct_names.
    rewrite Hkeep by (simpl; tauto).
    unfold rate_limit_headers, set_header; simpl.
    apply headers_get_set_eq.
Qed.

Lemma handler_returns_inv (request request' : Request) :
  handler_returns request = true ->
  body_size_check request = inr request' ->
  exists response, call_next request' = inr response.
Proof.
  unfold handler_returns. intros H Hb. rewrite Hb in H.
  destruct (call_next request') as [e|response]; [discriminate | eauto].
Qed.

(** The run of a request that is within the limit and whose handler
    returns. *)
Lemma middleware_answers (env : Env) (request : Request) (c : Cache) (id : string) :
  limiter_identifier request = Some id ->
  handler_returns request = true ->
  let n := next_value (cache_get c (now env) (rate_limit_key id)) in
  n <= MAX_REQUESTS Constants ->
  exists request' response,
    body_size_check request = inr request'
    /\ call_next request' = inr response
    /\ http_middleware env request c
       = MkRun (cache_set c (now env) (rate_limit_key id) n (WINDOW Constants))
           [CacheGet (rate_limit_key id);
            CacheSet (rate_limit_key id) n (WINDOW Constants);
            CallNext request';
            IncrementRequest ((perf_end env - perf_start env) * 1000)%Q]
           (inr (annotated env request' n response)).
Proof.
  intros Hid Hret n Hn.
  destruct (limiter_identifier_inv _ _ Hid) as (Hp & rq' & Hb & Hrq').
  destruct (handler_returns_inv _ _ Hret Hb) as (response & Hcall).
  exists rq', response. split; [exact Hb|]. split; [exact Hcall|].
  rewrite (middleware_within_limit env request rq' c Hp Hb); rewrite Hrq'; [|exact Hn].
  rewrite Hcall. reflexivity.
Qed.

(** In a steady sequence of one client's requests on a fresh window, the
    [i]-th request (from 0) reports [MAX_REQUESTS - (i + 1)] remaining
    as long as [i + 1] is within the limit ... *)
Lemma nth_remaining (id : string) (rs : list (Env * Request)) (c : Cache) (i : nat) :
  keeps_rate_limit_headers ->
  Forall (fun er => limiter_identifier (snd er) = Some id) rs ->
  Forall (fun er => handler_returns (snd er) = true) rs ->
  fresh_window c (rate_limit_key id) rs = true ->
  steady rs = true ->
  (i < length rs)%nat ->
  Z.of_nat i + 1 <= MAX_REQUESTS Constants ->
  exists r,
    serve rs c !! i = Some r
    /\ response_header r "X-RateLimit-Remaining"
       = Some (Py.str (MAX_REQUESTS Constants - (Z.of_nat i + 1))).
Proof.
  intros Hkeep Hall Hret Hfresh Hsteady Hlt Hle.
  destruct (lookup_lt_is_Some_2 rs i Hlt) as [[env request] Hi].
  destruct (serve_nth id rs c 0 i env request) as (c' & Hserve & Hcount);
    try assumption; try lia.
  { destruct rs as [|[e rq] rest]; [exact I|]. simpl in Hfresh.
    destruct (cache_get c (now e) (rate_limit_key id)); [discriminate | reflexivity]. }
  rewrite Z.add_0_l in Hcount.
  rewrite Forall_forall in Hall, Hret.
  assert (Hin : (env, request) ∈ rs) by (eapply list_elem_of_lookup_2; eassumption).
  destruct (middleware_answers env request c' id (Hall _ Hin) (Hret _ Hin))
    as (rq' & response & _ & _ & Hrun); [lia|].
  exists (http_middleware env request c'). split; [exact Hserve|].
  unfold response_header. rewrite Hrun. cbn [outcome].
  destruct (annotated_headers env rq'
              (next_value (cache_get c' (now env) (rate_limit_key id))) response Hkeep)
    as (_ & Hrem & _).
  rewrite Hrem, Hcount. f_equal. f_equal. lia.
Qed.

(** ... and the request that comes when the counter stands at
    [MAX_REQUESTS] is turned down. *)
Lemma nth_rejected (id : string) (rs : list (Env * Request)) (c : Cache) (i : nat) :
  Forall (fun er => limiter_identifier (snd er) = Some id) rs ->
  fresh_window c (rate_limit_key id) rs = true ->
  steady rs = true ->
  (i < length rs)%nat ->
  Z.of_nat i = MAX_REQUESTS Constants ->
  exists r, serve rs c !! i = Some r /\ raised r = Some too_many_requests.
Proof.
  intros Hall Hfresh Hsteady Hlt Hle.
  destruct (lookup_lt_is_Some_2 rs i Hlt) as [[env request] Hi].
  destruct (serve_nth id rs c 0 i env request) as (c' & Hserve & Hcount);
    try assumption; try lia.
  { destruct rs as [|[e rq] rest]; [exact I|]. simpl in Hfresh.
    destruct (cache_get c (now e) (rate_limit_key id)); [discriminate | reflexivity]. }
  rewrite Z.add_0_l in Hcount.
  rewrite Forall_forall in Hall.
  assert (Hin : (env, request) ∈ rs) by (eapply list_elem_of_lookup_2; eassumption).
  destruct (limiter_identifier_inv _ _ (Hall _ Hin)) as (Hp & rq' & Hb & Hrq').
  exists (http_middleware env request c'). split; [exact Hserve|].
  rewrite (middleware_over_limit env request rq' c' Hp Hb); [reflexivity|].
  rewrite Hrq', Hcount. lia.
Qed.

(** C6: on every allowed request (one that reaches the rate limiter, is
    within the limit, and whose handler returns a response) the response
    carries X-RateLimit-Limit = [MAX_REQUESTS], X-RateLimit-Remaining =
    [max(MAX_REQUESTS - current_count, 0)] and X-RateLimit-Reset =
    [WINDOW], the window length; and with [MAX_REQUESTS] = 5, six
    requests of one client on a fresh window give the remaining values
    4, 3, 2, 1, 0 and then a 429 whose Retry-After is [WINDOW].
    [add_security_headers] is taken not to touch these headers. *)
Theorem allowed_requests_carry_rate_limit_headers :
  keeps_rate_limit_headers ->
  (forall (env : Env) (request : Request) (c : Cache) (id : string),
      limiter_identifier request = Some id ->
      rate_rejected env request c = false ->
      handler_returns request = true ->
      let r := http_middleware env request c in
      let current := next_value (cache_get c (now env) (rate_limit_key id)) in
      response_header r "X-RateLimit-Limit" = Some (Py.str (MAX_REQUESTS Constants))
      /\ response_header r "X-RateLimit-Remaining"
         = Some (Py.str (Z.max (MAX_REQUESTS Constants - current) 0))
      /\ response_header r "X-RateLimit-Reset" = Some (Py.str (WINDOW Constants)))
  /\ (MAX_REQUESTS Constants = 5 ->
      forall (id : string) (rs : list (Env * Request)) (c : Cache),
        length rs = 6%nat ->
        Forall (fun er => limiter_identifier (snd er) = Some id) rs ->
        Forall (fun er => handler_returns (snd er) = true) rs ->
        fresh_window c (rate_limit_key id) rs = true ->
        steady rs = true ->
        (fun r => response_header r "X-RateLimit-Remaining") <$> take 5 (serve rs c)
        = [Some "4"; Some "3"; Some "2"; Some "1"; Some "0"]
        /\ exists r6,
            serve rs c !! 5%nat = Some r6
            /\ exception_status <$> raised r6 = Some (Some 429)
            /\ (raised r6 ≫= fun e => exception_header e "Retry-After")
               = Some (Py.str (WINDOW Constants))).
Proof.
  intros Hkeep. split.
  - intros env request c id Hid Hrej Hret r current.
    assert (Hn : current <= MAX_REQUESTS Constants).
    { unfold rate_rejected in Hrej. rewrite Hid, Z.gtb_ltb in Hrej.
      apply Z.ltb_ge in Hrej. exact Hrej. }
    destruct (middleware_answers env request c id Hid Hret Hn)
      as (rq' & response & _ & _ & Hrun).
    subst r. unfold response_header. rewrite Hrun. cbn [outcome].
    apply annotated_headers, Hkeep.
  - intros Hmax id rs c Hlen Hall Hret Hfresh Hsteady. split.
    + apply list_eq. intros i. rewrite list_lookup_fmap.
      destruct (decide (i < 5)%nat) as [Hi|Hi].
      * rewrite lookup_take_lt by exact Hi.
        destruct (nth_remaining id rs c i Hkeep Hall Hret Hfresh Hsteady)
          as (r & -> & Hrem); [lia | lia |].
        simpl. rewrite Hrem, Hmax.
        do 5 (destruct i as [|i]; [reflexivity|]). lia.
      * rewrite lookup_take_ge by lia. simpl.
        symmetry. apply lookup_ge_None_2. simpl. lia.
    + destruct (nth_rejected id rs c 5 Hall Hfresh Hsteady) as (r6 & Hs & Hraised);
        [lia | lia |].
      exists r6. split; [exact Hs|]. rewrite Hraised. split; reflexivity.
Qed.

(** *** Documentation paths *)

Lemma bypass_path_spec (p : string) :
  bypass_path p = true <-> p = "/docs" \/ p = "/redoc" \/ p = "/openapi.json".
Proof.
  unfold bypass_path, bypass_paths; simpl.
  destruct (String.eqb_spec p "/docs"), (String.eqb_spec p "/redoc"),
    (String.eqb_spec p "/openapi.json"); simpl; split; intros Hx;
    try tauto; try discriminate.
Qed.

(** C7 (as amended): exactly three paths - /docs, /redoc and
    /openapi.json - bypass the pipeline: the request goes straight to
    the handler, whose result is returned as it is, with no size check,
    no cache access, no header annotation and no monitor update.  For
    every other path the full pipeline runs: the size check first, then
    the rate limiter, and for a request within the limit the handler,
    the header annotation and the monitor update. *)
Theorem documentation_paths_bypass_pipeline
        (env : Env) (request : Request) (c : Cache) :
  (bypass_path (path request) = true
   <-> path request = "/docs" \/ path request = "/redoc"
       \/ path request = "/openapi.json")
  /\ (bypass_path (path request) = true ->
      http_middleware env request c = MkRun c [CallNext request] (call_next request))
  /\ (bypass_path (path request) = false ->
      match body_size_check request with
      | inl e => http_middleware env request c = MkRun c [] (inl e)
      | inr request' =>
          let key := rate_limit_key (get_client_identifier request') in
          let n := next_value (cache_get c (now env) key) in
          let ms := ((perf_end env - perf_start env) * 1000)%Q in
          if n >? MAX_REQUESTS Constants
          then http_middleware env request c
               = MkRun c [CacheGet key] (inl too_many_requests)
          else
            match call_next request' with
            | inl e =>
                http_middleware env request c
                = MkRun (cache_set c (now env) key n (WINDOW Constants))
                    [CacheGet key; CacheSet key n (WINDOW Constants); CallNext request']
                    (inl e)
            | inr response =>
                http_middleware env request c
                = MkRun (cache_set c (now env) key n (WINDOW Constants))
                    [CacheGet key; CacheSet key n (WINDOW Constants);
                     CallNext request'; IncrementRequest ms]
                    (inr (annotated env request' n response))
                /\ headers_get (headers (annotated env request' n response))
                     "X-Response-Time"
                   = Some (format_2f ms ++ "ms")
            end
      end).
Proof.
  split; [apply bypass_path_spec|]. split.
  - apply middleware_bypass.
  - intros Hp. destruct (body_size_check request) as [e|rq'] eqn:Hb.
    + now apply middleware_size_check_raises.
    + cbv zeta.
      destruct (Z.gtb_spec
                  (next_value (cache_get c (now env)
                                 (rate_limit_key (get_client_identifier rq'))))
                  (MAX_REQUESTS Constants)) as [Hgt|Hle].
      * apply (middleware_over_limit env request rq' c Hp Hb). lia.
      * pose proof (middleware_within_limit env request rq' c Hp Hb Hle) as Hrun.
        cbv zeta in Hrun.
        destruct (call_next rq') as [e|response]; [exact Hrun|].
        split; [exact Hrun|]. unfold annotated, set_header; simpl.
        apply headers_get_set_eq.
Qed.

(** C8 (as amended): every allowed request calls
    [cache.set(key, new_value, WINDOW)], which moves the key's deadline
    to [WINDOW] seconds after that call; a rejected request leaves the
    cache as it is.  So the window is anchored at the client's last
    allowed request, not at its first: in a sequence of one client's
    requests, each less than [WINDOW] after the one before, the [i]-th
    request is counted as [i + 1] for as long as that is within the
    limit, however long ago the first request was. *)
Theorem allowed_requests_refresh_the_deadline :
  (forall (env : Env) (request : Request) (c : Cache) (id : string),
      limiter_identifier request = Some id ->
      rate_rejected env request c = false ->
      let r := http_middleware env request c in
      let n := next_value (cache_get c (now env) (rate_limit_key id)) in
      In (CacheSet (rate_limit_key id) n (WINDOW Constants)) (events r)
      /\ cache_after r !! rate_limit_key id
         = Some {| value := n;
                   expires_at := (now env + inject_Z (WINDOW Constants))%Q |})
  /\ (forall (env : Env) (request : Request) (c : Cache),
         rate_rejected env request c = true ->
         cache_after (http_middleware env request c) = c)
  /\ (forall (id : string) (rs : list (Env * Request)) (c : Cache)
             (i : nat) (env : Env) (request : Request),
         Forall (fun er => limiter_identifier (snd er) = Some id) rs ->
         fresh_window c (rate_limit_key id) rs = true ->
         steady rs = true ->
         rs !! i = Some (env, request) ->
         Z.of_nat i < MAX_REQUESTS Constants ->
         exists c',
           serve rs c !! i = Some (http_middleware env request c')
           /\ In (CacheSet (rate_limit_key id) (Z.of_nat i + 1) (WINDOW Constants))
                (events (http_middleware env request c'))).
Proof.
  split; [|split].
  - intros env request c id Hid Hrej r n.
    destruct (limiter_identifier_inv _ _ Hid) as (Hp & rq' & Hb & Hrq').
    assert (Hn : n <= MAX_REQUESTS Constants).
    { unfold rate_rejected in Hrej. rewrite Hid, Z.gtb_ltb in Hrej.
      apply Z.ltb_ge in Hrej. exact Hrej. }
    subst r. rewrite (middleware_within_limit env request rq' c Hp Hb);
      rewrite Hrq'; [|exact Hn].
    cbn [events cache_after]. split.
    + simpl. right. left. reflexivity.
    + unfold cache_set. apply lookup_insert_eq.
  - intros env request c Hrej.
    destruct (middleware_rate_rejected env request c Hrej) as (id & _ & Hrun).
    now rewrite Hrun.
  - intros id rs c i env request Hall Hfresh Hsteady Hi Hlt.
    destruct (serve_nth id rs c 0 i env request) as (c' & Hserve & Hcount);
      try assumption; try lia.
    { destruct rs as [|[e rq] rest]; [exact I|]. simpl in Hfresh.
      destruct (cache_get c (now e) (rate_limit_key id)); [discriminate | reflexivity]. }
    rewrite Z.add_0_l in Hcount.
    exists c'. split; [exact Hserve|].
    rewrite Forall_forall in Hall.
    assert (Hin : (env, request) ∈ rs) by (eapply list_elem_of_lookup_2; eassumption).
    destruct (limiter_identifier_inv _ _ (Hall _ Hin)) as (Hp & rq' & Hb & Hrq').
    rewrite (middleware_within_limit env request rq' c' Hp Hb); rewrite Hrq', Hcount; [|lia].
    simpl. right. left. reflexivity.
Qed.

(** C9: whatever the configuration, the body of the 429 exception has
    the message "Rate limit exceeded. Try again in 60 seconds.", while
    its retry_after field and its Retry-After header are [WINDOW]; when
    [WINDOW] is not 60 the two disagree. *)
Theorem rejection_message_ignores_window
        (env : Env) (request : Request) (c : Cache) :
  rate_rejected env request c = true ->
  exists e,
    raised (http_middleware env request c) = Some e
    /\ detail_field e "message"
       = Some (PStr "Rate limit exceeded. Try again in 60 seconds.")
    /\ detail_field e "retry_after" = Some (PStr (Py.str (WINDOW Constants)))
    /\ exception_header e "Retry-After" = Some (Py.str (WINDOW Constants))
    /\ (WINDOW Constants <> 60 -> Py.str (WINDOW Constants) <> "60").
Proof.
  intros Hrej.
  destruct (middleware_rate_rejected env request c Hrej) as (id & _ & Hrun).
  exists too_many_requests. rewrite Hrun. repeat split.
  intros Hw Heq. apply Hw. apply str_inj. exact Heq.
Qed.

(** C10: the size guard converts the content-length header with a bare
    [int()].  For a request (outside the documentation paths) whose
    non-empty content-length is not an integer literal, the middleware
    raises [ValueError]; the handler registered for it is the global
    one, which reports status 500; no cache access is made and the
    downstream handler is not called. *)
Theorem malformed_content_length_raises_value_error
        (env : Env) (request : Request) (c : Cache) (declared : string) :
  bypass_path (path request) = false ->
  headers_get (req_headers request) "content-length" = Some declared ->
  declared <> EmptyString ->
  Py.int max_str_digits declared = None ->
  let r := http_middleware env request c in
  outcome r = inl (ValueError declared)
  /\ exception_handler (ValueError declared) = global_exception_handler
  /\ report_status (exception_handler (ValueError declared)) = 500
  /\ events r = []
  /\ cache_after r = c.
Proof.
  intros Hp Hcl Hne Hint r.
  assert (Hb : body_size_check request = inl (ValueError declared)).
  { unfold body_size_check. rewrite Hcl.
    destruct declared; [contradiction|]. simpl. simpl in Hint. now rewrite Hint. }
  subst r. rewrite (middleware_size_check_raises env request c _ Hp Hb).
  repeat split.
Qed.

End Properties.

(** ** The properties on concrete runs *)

(** Three posts at 0, 10 and 20 seconds under a limit of 5: the third is
    counted as 3. *)
Lemma requests_within_limit_are_counted_witness :
  Z.of_nat (length (Sample.posts [0; 10; 20]%Q))
  <= MAX_REQUESTS (Constants (Deployment := Sample.app 5 60))
  /\ steady (app := Sample.app 5 60) (Sample.posts [0; 10; 20]%Q) = true
  /\ exists (c' : Cache) (request' : Request) (tail : list Event),
      serve (app := Sample.app 5 60) (Sample.posts [0; 10; 20]%Q) ∅ !! 2%nat
      = Some (http_middleware (app := Sample.app 5 60) (Sample.env 20) Sample.post c')
      /\ rate_rejected (app := Sample.app 5 60) (Sample.env 20) Sample.post c' = false
      /\ next_value (cache_get c' (now (Sample.env 20)) (rate_limit_key "10.0.0.1"))
         = Z.of_nat 2 + 1
      /\ body_size_check (app := Sample.app 5 60) Sample.post = inr request'
      /\ events (http_middleware (app := Sample.app 5 60) (Sample.env 20) Sample.post c')
         = CacheGet (rate_limit_key "10.0.0.1")
             :: CacheSet (rate_limit_key "10.0.0.1") (Z.of_nat 2 + 1)
                  (WINDOW (Constants (Deployment := Sample.app 5 60)))
             :: CallNext request' :: tail.
Proof.
  split; [vm_compute; discriminate|]. split; [reflexivity|].
  apply (requests_within_limit_are_counted (app := Sample.app 5 60)
           "10.0.0.1" (Sample.posts [0; 10; 20]%Q) ∅).
  - vm_compute; discriminate.
  - repeat constructor.
  - reflexivity.
  - reflexivity.
  - reflexivity.
Defined.

(** With the counter at 5, the limit, the next post is turned down. *)
Lemma count_at_limit_is_rejected_witness :
  limiter_identifier (app := Sample.app 5 60) Sample.post = Some "10.0.0.1"
  /\ cache_get (Sample.counted 5) (now (Sample.env 10)) (rate_limit_key "10.0.0.1")
     = Some (MAX_REQUESTS (Constants (Deployment := Sample.app 5 60)))
  /\ exists (d : list (string * PyVal)) (hs : Headers),
      outcome (http_middleware (app := Sample.app 5 60) (Sample.env 10) Sample.post
                 (Sample.counted 5))
      = inl (HTTPException 429 (DetailDict d) (Some hs))
      /\ map fst d = ["error"; "message"; "retry_after"; "limit"; "window"]
      /\ map fst hs = ["Retry-After"; "X-RateLimit-Limit";
                       "X-RateLimit-Remaining"; "X-RateLimit-Reset"]
      /\ dict_get hs "X-RateLimit-Remaining" = Some "0"
      /\ existsb is_call_next
           (events (http_middleware (app := Sample.app 5 60) (Sample.env 10) Sample.post
                      (Sample.counted 5)))
         = false.
Proof.
  split; [reflexivity|]. split; [reflexivity|].
  apply (count_at_limit_is_rejected (app := Sample.app 5 60)
           (Sample.env 10) Sample.post (Sample.counted 5) "10.0.0.1");
    reflexivity.
Defined.

(** C3, as stated, fails: with the counter at the limit of 5 the next
    request is rejected, no [cache.set] is issued and the counter read
    back afterwards is still 5, not 6. *)
Lemma over_limit_count_is_not_written :
  rate_rejected (app := Sample.app 5 60) (Sample.env 10) Sample.post (Sample.counted 5) = true
  /\ next_value (cache_get (Sample.counted 5) 10 Sample.key) = 6
  /\ ~ In (CacheSet Sample.key 6 60)
         (events (http_middleware (app := Sample.app 5 60) (Sample.env 10) Sample.post
                    (Sample.counted 5)))
  /\ cache_get
       (cache_after (http_middleware (app := Sample.app 5 60) (Sample.env 10) Sample.post
                       (Sample.counted 5)))
       10 Sample.key
     = Some 5.
Proof.
  split; [reflexivity|]. split; [reflexivity|]. split; [|reflexivity].
  vm_compute. intros [Hev|[]]. discriminate Hev.
Qed.

(** The rejected post leaves the cache exactly as it found it. *)
Lemma rejected_request_writes_nothing_witness :
  rate_rejected (app := Sample.app 5 60) (Sample.env 10) Sample.post (Sample.counted 5) = true
  /\ raised (http_middleware (app := Sample.app 5 60) (Sample.env 10) Sample.post
               (Sample.counted 5))
     = Some (too_many_requests (app := Sample.app 5 60))
  /\ existsb is_cache_set
       (events (http_middleware (app := Sample.app 5 60) (Sample.env 10) Sample.post
                  (Sample.counted 5)))
     = false
  /\ cache_after (http_middleware (app := Sample.app 5 60) (Sample.env 10) Sample.post
                    (Sample.counted 5))
     = Sample.counted 5.
Proof.
  split; [reflexivity|].
  apply (rejected_request_writes_nothing (app := Sample.app 5 60)
           (Sample.env 10) Sample.post (Sample.counted 5)).
  reflexivity.
Defined.

(** C4, as stated, fails: an oversized request is rejected with 413 and a
    request over the limit with 429, and in neither run is the monitor's
    [increment_request] called. *)
Lemma rejections_bypass_the_monitor :
  size_rejected (app := Sample.app 5 60) Sample.oversized = true
  /\ (~ exists ms, In (IncrementRequest ms)
                     (events (http_middleware (app := Sample.app 5 60)
                                (Sample.env 10) Sample.oversized ∅)))
  /\ rate_rejected (app := Sample.app 5 60) (Sample.env 10) Sample.post (Sample.counted 5) = true
  /\ (~ exists ms, In (IncrementRequest ms)
                     (events (http_middleware (app := Sample.app 5 60)
                                (Sample.env 10) Sample.post (Sample.counted 5)))).
Proof.
  split; [reflexivity|]. split; [|split; [reflexivity|]].
  - vm_compute. intros [ms []].
  - vm_compute. intros [ms [Hev|[]]]. discriminate Hev.
Qed.

(** An oversized post reaches neither the handler nor the monitor. *)
Lemma rejected_request_skips_handler_and_monitor_witness :
  (size_rejected (app := Sample.app 5 60) Sample.oversized = true
   \/ rate_rejected (app := Sample.app 5 60) (Sample.env 10) Sample.oversized ∅ = true)
  /\ (raised (http_middleware (app := Sample.app 5 60) (Sample.env 10) Sample.oversized ∅)
      = Some (too_large (app := Sample.app 5 60))
      \/ raised (http_middleware (app := Sample.app 5 60) (Sample.env 10) Sample.oversized ∅)
         = Some (too_many_requests (app := Sample.app 5 60)))
  /\ existsb is_call_next
       (events (http_middleware (app := Sample.app 5 60) (Sample.env 10) Sample.oversized ∅))
     = false
  /\ existsb is_increment_request
       (events (http_middleware (app := Sample.app 5 60) (Sample.env 10) Sample.oversized ∅))
     = false.
Proof.
  split; [left; reflexivity|].
  apply (rejected_request_skips_handler_and_monitor (app := Sample.app 5 60)
           (Sample.env 10) Sample.oversized ∅).
  left. reflexivity.
Defined.

(** A post declaring 1025 bytes against a limit of 1024, from a client
    whose counter stands at 3. *)
Lemma oversized_request_rejected_before_rate_limit_witness :
  bypass_path (path Sample.oversized) = false
  /\ headers_get (req_headers Sample.oversized) "content-length" = Some "1025"
  /\ Py.int (max_str_digits (Deployment := Sample.app 5 60)) "1025" = Some 1025
  /\ 1025 > MAX_BODY_SIZE (Constants (Deployment := Sample.app 5 60))
  /\ outcome (http_middleware (app := Sample.app 5 60) (Sample.env 10) Sample.oversized
                (Sample.counted 3))
     = inl (HTTPException 413
              (DetailStr "Request entity too large. Max allowed: 1024 bytes") None)
  /\ events (http_middleware (app := Sample.app 5 60) (Sample.env 10) Sample.oversized
               (Sample.counted 3))
     = []
  /\ cache_after (http_middleware (app := Sample.app 5 60) (Sample.env 10) Sample.oversized
                    (Sample.counted 3))
     = Sample.counted 3.
Proof.
  split; [reflexivity|]. split; [reflexivity|]. split; [reflexivity|].
  split; [reflexivity|].
  apply (oversized_request_rejected_before_rate_limit (app := Sample.app 5 60)
           (Sample.env 10) Sample.oversized (Sample.counted 3) "1025" 1025);
    reflexivity.
Defined.

Lemma sample_security_keeps_rate_limit_headers (max_requests window : Z) :
  keeps_rate_limit_headers (app := Sample.app max_requests window).
Proof.
  intros request response key Hkey. simpl. unfold Sample.security, headers_get; simpl.
  rewrite dict_get_app. destruct (dict_get (headers response) (Py.lower key)); [reflexivity|].
  destruct Hkey as [<-|[<-|[<-|[]]]]; reflexivity.
Qed.

(** The end-to-end scenario: limit 5, window 60, six posts within one
    second. *)
Lemma allowed_requests_carry_rate_limit_headers_witness :
  keeps_rate_limit_headers (app := Sample.app 5 60)
  /\ (fun r => response_header r "X-RateLimit-Remaining")
       <$> take 5 (serve (app := Sample.app 5 60)
                     (Sample.posts [0; 1 # 5; 2 # 5; 3 # 5; 4 # 5; 1]%Q) ∅)
     = [Some "4"; Some "3"; Some "2"; Some "1"; Some "0"]
  /\ exists r6,
      serve (app := Sample.app 5 60)
        (Sample.posts [0; 1 # 5; 2 # 5; 3 # 5; 4 # 5; 1]%Q) ∅ !! 5%nat = Some r6
      /\ exception_status <$> raised r6 = Some (Some 429)
      /\ (raised r6 ≫= fun e => exception_header e "Retry-After") = Some "60".
Proof.
  split; [apply sample_security_keeps_rate_limit_headers|].
  destruct (allowed_requests_carry_rate_limit_headers (app := Sample.app 5 60)
              (sample_security_keeps_rate_limit_headers 5 60)) as [_ Hscenario].
  apply (Hscenario eq_refl "10.0.0.1"
           (Sample.posts [0; 1 # 5; 2 # 5; 3 # 5; 4 # 5; 1]%Q) ∅).
  - reflexivity.
  - repeat constructor.
  - repeat constructor.
  - reflexivity.
  - reflexivity.
Defined.

(** C7, as stated, fails: the paths that bypass the pipeline are not two;
    /docs, /redoc and /openapi.json all do. *)
Lemma bypass_paths_are_not_two :
  ~ exists p1 p2 : string, forall p : string,
        bypass_path p = true <-> (p = p1 \/ p = p2).
Proof.
  intros (p1 & p2 & Hp).
  destruct (proj1 (Hp "/docs") eq_refl) as [H1|H1],
           (proj1 (Hp "/redoc") eq_refl) as [H2|H2],
           (proj1 (Hp "/openapi.json") eq_refl) as [H3|H3];
    congruence.
Qed.

(** A request for /openapi.json goes to the handler even though it
    declares an oversized body and its client is at the limit. *)
Lemma documentation_paths_bypass_pipeline_witness :
  bypass_path (path (Sample.request "/openapi.json" [("content-length", "1025")])) = true
  /\ http_middleware (app := Sample.app 5 60) (Sample.env 10)
       (Sample.request "/openapi.json" [("content-length", "1025")]) (Sample.counted 5)
     = MkRun (Sample.counted 5)
         [CallNext (Sample.request "/openapi.json" [("content-length", "1025")])]
         (inr Sample.ok_response).
Proof.
  split; [reflexivity|].
  apply (proj1 (proj2 (documentation_paths_bypass_pipeline (app := Sample.app 5 60)
                         (Sample.env 10)
                         (Sample.request "/openapi.json" [("content-length", "1025")])
                         (Sample.counted 5)))).
  reflexivity.
Defined.

(** C8, as stated, fails: with a limit of 2 and a window of 60 seconds, a
    client posting every 50 seconds is counted 1, 2, then rejected at 100
    (which writes nothing, so the deadline stays at 110), and at 150 it
    starts again at 1. *)
Lemma steady_client_gets_a_fresh_count :
  steady (app := Sample.app 2 60) (Sample.posts [0; 50; 100; 150]%Q) = true
  /\ (raised <$> serve (app := Sample.app 2 60)
                   (Sample.posts [0; 50; 100; 150]%Q) ∅ !! 2%nat)
     = Some (Some (too_many_requests (app := Sample.app 2 60)))
  /\ (events <$> serve (app := Sample.app 2 60)
                   (Sample.posts [0; 50; 100; 150]%Q) ∅ !! 3%nat)
     = Some [CacheGet Sample.key; CacheSet Sample.key 1 60; CallNext Sample.post;
             IncrementRequest ((0 - 0) * 1000)%Q].
Proof. repeat split. Qed.

(** Posts at 0, 50 and 100 seconds with a window of 60: the third comes
    100 seconds after the first and is still counted as 3. *)
Lemma allowed_requests_refresh_the_deadline_witness :
  steady (app := Sample.app 5 60) (Sample.posts [0; 50; 100]%Q) = true
  /\ exists c',
      serve (app := Sample.app 5 60) (Sample.posts [0; 50; 100]%Q) ∅ !! 2%nat
      = Some (http_middleware (app := Sample.app 5 60) (Sample.env 100) Sample.post c')
      /\ In (CacheSet (rate_limit_key "10.0.0.1") (Z.of_nat 2 + 1)
               (WINDOW (Constants (Deployment := Sample.app 5 60))))
           (events (http_middleware (app := Sample.app 5 60) (Sample.env 100)
                      Sample.post c')).
Proof.
  split; [reflexivity|].
  apply (proj2 (proj2 (allowed_requests_refresh_the_deadline (app := Sample.app 5 60)))
           "10.0.0.1" (Sample.posts [0; 50; 100]%Q) ∅ 2%nat (Sample.env 100) Sample.post).
  - repeat constructor.
  - reflexivity.
  - reflexivity.
  - reflexivity.
  - reflexivity.
Defined.

(** With a window of 30 seconds the message still says 60. *)
Lemma rejection_message_ignores_window_witness :
  rate_rejected (app := Sample.app 5 30) (Sample.env 10) Sample.post (Sample.counted 5) = true
  /\ exists e,
      raised (http_middleware (app := Sample.app 5 30) (Sample.env 10) Sample.post
                (Sample.counted 5))
      = Some e
      /\ detail_field e "message"
         = Some (PStr "Rate limit exceeded. Try again in 60 seconds.")
      /\ detail_field e "retry_after" = Some (PStr "30")
      /\ exception_header e "Retry-After" = Some "30"
      /\ (WINDOW (Constants (Deployment := Sample.app 5 30)) <> 60 -> "30" <> "60").
Proof.
  split; [reflexivity|].
  apply (rejection_message_ignores_window (app := Sample.app 5 30)
           (Sample.env 10) Sample.post (Sample.counted 5)).
  reflexivity.
Defined.

(** A content-length that starts with digits and goes on with letters. *)
Lemma malformed_content_length_raises_value_error_witness :
  bypass_path (path Sample.malformed) = false
  /\ headers_get (req_headers Sample.malformed) "content-length" = Some "12abc"
  /\ "12abc" <> EmptyString
  /\ Py.int (max_str_digits (Deployment := Sample.app 5 60)) "12abc" = None
  /\ outcome (http_middleware (app := Sample.app 5 60) (Sample.env 10) Sample.malformed
                (Sample.counted 3))
     = inl (ValueError "12abc")
  /\ exception_handler (ValueError "12abc") = global_exception_handler
  /\ report_status (exception_handler (ValueError "12abc")) = 500
  /\ events (http_middleware (app := Sample.app 5 60) (Sample.env 10) Sample.malformed
               (Sample.counted 3))
     = []
  /\ cache_after (http_middleware (app := Sample.app 5 60) (Sample.env 10) Sample.malformed
                    (Sample.counted 3))
     = Sample.counted 3.
Proof.
  split; [reflexivity|]. split; [reflexivity|]. split; [discriminate|].
  split; [reflexivity|].
  apply (malformed_content_length_raises_value_error (app := Sample.app 5 60)
           (Sample.env 10) Sample.malformed (Sample.counted 3) "12abc");
    try reflexivity.
  discriminate.
Defined.

(** ** Sanity checks of the built-ins *)

Example int_plain : Py.int 4300 "1024" = Some 1024.
Proof. reflexivity. Qed.

Example int_signed_padded : Py.int 4300 "  -12_000 " = Some (-12000).
Proof. reflexivity. Qed.

Example int_rejects_hex : Py.int 4300 "0x10" = None.
Proof. reflexivity. Qed.

Example int_rejects_float : Py.int 4300 "12.5" = None.
Proof. reflexivity. Qed.

Example int_rejects_trailing_underscore : Py.int 4300 "12_" = None.
Proof. reflexivity. Qed.

Example int_rejects_inner_space : Py.int 4300 "- 5" = None.
Proof. reflexivity. Qed.

Example str_negative : Py.str (-60) = "-60".
Proof. reflexivity. Qed.

Example lower_header : Py.lower "X-RateLimit-Limit" = "x-ratelimit-limit".
Proof. reflexivity. Qed.

(** A header set twice is kept once, in its first position. *)
Example headers_set_overwrites :
  headers_set [("x-ratelimit-limit", "9"); ("vary", "Origin"); ("x-ratelimit-limit", "7")]
    "X-RateLimit-Limit" "5"
  = [("x-ratelimit-limit", "5"); ("vary", "Origin")].
Proof. reflexivity. Qed.

(** A body streamed in chunks is cut off at the chunk that crosses the
    limit of 1024 bytes. *)
Example streamed_body_too_large :
  read_stream (app := Sample.app 5 60)
    [repeat Byte.x00 600; repeat Byte.x00 600; repeat Byte.x00 5] []
  = inl (too_large (app := Sample.app 5 60)).
Proof. reflexivity. Qed.

(** ** Further properties of the middleware *)

Section Coverage.

Context {app : Deployment}.

Local Open Scope list_scope.

(** *** The body-size guard on streamed and declared bodies *)

Lemma read_stream_within (chunks : list bytes) (b : bytes) :
  Z.of_nat (length (b ++ concat chunks)) <= MAX_BODY_SIZE Constants ->
  read_stream chunks b = inr (b ++ concat chunks).
Proof.
  revert b. induction chunks as [|chunk rest IH]; intros b Hle; simpl.
  - now rewrite app_nil_r.
  - simpl in Hle. rewrite app_assoc in Hle.
    destruct (Z.gtb_spec (Z.of_nat (length (b ++ chunk))) (MAX_BODY_SIZE Constants)) as [Hgt|_].
    + rewrite (length_app (b ++ chunk)) in Hle. lia.
    + rewrite (IH (b ++ chunk) Hle). now rewrite app_assoc.
Qed.

Lemma read_stream_beyond (chunks : list bytes) (b : bytes) :
  Z.of_nat (length b) <= MAX_BODY_SIZE Constants ->
  Z.of_nat (length (b ++ concat chunks)) > MAX_BODY_SIZE Constants ->
  read_stream chunks b = inl too_large.
Proof.
  revert b. induction chunks as [|chunk rest IH]; intros b Hb Hgt; simpl.
  - simpl in Hgt. rewrite app_nil_r in Hgt. lia.
  - destruct (Z.gtb_spec (Z.of_nat (length (b ++ chunk))) (MAX_BODY_SIZE Constants)) as [_|Hle];
      [reflexivity|].
    apply IH; [exact Hle|]. simpl in Hgt. now rewrite app_assoc in Hgt.
Qed.

Lemma body_size_check_streams (request : Request) :
  Py.truthy_str (headers_get (req_headers request) "content-length") = false ->
  body_size_check request
  = match read_stream (stream request) [] with
    | inl e => inl e
    | inr b => inr (set_body request b)
    end.
Proof. intros Hcl. unfold body_size_check. now rewrite Hcl. Qed.

(** X1: a request without a (non-empty) content-length whose streamed
    chunks add up to at most [MAX_BODY_SIZE] passes the guard with the
    concatenation of its chunks stored as [request._body]; when it is
    also within the rate limit, that is the request the handler gets. *)
Theorem streamed_body_within_limit_is_buffered
        (env : Env) (request : Request) (c : Cache) :
  Py.truthy_str (headers_get (req_headers request) "content-length") = false ->
  total_size (stream request) <= MAX_BODY_SIZE Constants ->
  body_size_check request = inr (set_body request (concat (stream request)))
  /\ (bypass_path (path request) = false ->
      rate_rejected env request c = false ->
      In (CallNext (set_body request (concat (stream request))))
         (events (http_middleware env request c))).
Proof.
  intros Hcl Hsize.
  assert (Hb : body_size_check request
               = inr (set_body request (concat (stream request)))).
  { rewrite (body_size_check_streams request Hcl).
    now rewrite (read_stream_within (stream request) [] Hsize). }
  split; [exact Hb|]. intros Hp Hrej.
  unfold rate_rejected, limiter_identifier in Hrej. rewrite Hp, Hb in Hrej.
  rewrite Z.gtb_ltb in Hrej. apply Z.ltb_ge in Hrej.
  rewrite (middleware_within_limit env request _ c Hp Hb Hrej).
  cbn [events]. simpl. right. right. left. reflexivity.
Qed.

(** X2: with a non-negative [MAX_BODY_SIZE], a streamed request is turned
    down by the guard exactly when its chunks add up to more than the
    limit - however the bytes are split into chunks and whatever follows
    the chunk that crosses the limit.  The run then raises the 413
    exception with no cache access and no handler call. *)
Theorem streamed_body_over_limit_is_rejected
        (env : Env) (request : Request) (c : Cache) :
  Py.truthy_str (headers_get (req_headers request) "content-length") = false ->
  0 <= MAX_BODY_SIZE Constants ->
  (body_size_check request = inl too_large
   <-> total_size (stream request) > MAX_BODY_SIZE Constants)
  /\ (bypass_path (path request) = false ->
      total_size (stream request) > MAX_BODY_SIZE Constants ->
      http_middleware env request c = MkRun c [] (inl too_large)).
Proof.
  intros Hcl Hmax.
  assert (Hover : total_size (stream request) > MAX_BODY_SIZE Constants ->
                  body_size_check request = inl too_large).
  { intros Hgt. rewrite (body_size_check_streams request Hcl).
    now rewrite (read_stream_beyond (stream request) [] Hmax Hgt). }
  split; [split|].
  - intros Hb.
    destruct (Z_le_gt_dec (total_size (stream request)) (MAX_BODY_SIZE Constants))
      as [Hle|Hgt]; [|exact Hgt].
    rewrite (body_size_check_streams request Hcl) in Hb.
    rewrite (read_stream_within (stream request) [] Hle) in Hb. discriminate.
  - exact Hover.
  - intros Hp Hgt. apply middleware_size_check_raises; [exact Hp | now apply Hover].
Qed.

(** X3: when the content-length header holds an integer [n], only that
    number is looked at: the guard rejects exactly when [n] is above
    [MAX_BODY_SIZE] (so [n = MAX_BODY_SIZE] passes), and a request that
    passes is handed on as it came - the stream is not read and
    [request._body] is not set, whatever the stream would deliver. *)
Theorem declared_length_decides_alone
        (request : Request) (declared : string) (n : Z) :
  headers_get (req_headers request) "content-length" = Some declared ->
  Py.int max_str_digits declared = Some n ->
  (body_size_check request = inl too_large <-> n > MAX_BODY_SIZE Constants)
  /\ (n <= MAX_BODY_SIZE Constants -> body_size_check request = inr request)
  /\ (n <= MAX_BODY_SIZE Constants ->
      bypass_path (path request) = false ->
      limiter_identifier request = Some (get_client_identifier request)).
Proof.
  intros Hcl Hint.
  assert (Hb : body_size_check request
               = if n >? MAX_BODY_SIZE Constants then inl too_large else inr request).
  { unfold body_size_check. rewrite Hcl, (int_nonempty _ _ _ Hint). simpl.
    now rewrite Hint. }
  split; [|split].
  - rewrite Hb. destruct (Z.gtb_spec n (MAX_BODY_SIZE Constants)); split;
      intros Hx; try reflexivity; try lia; discriminate.
  - intros Hle. rewrite Hb. destruct (Z.gtb_spec n (MAX_BODY_SIZE Constants)); [lia | reflexivity].
  - intros Hle Hp. unfold limiter_identifier. rewrite Hp, Hb.
    destruct (Z.gtb_spec n (MAX_BODY_SIZE Constants)); [lia | reflexivity].
Qed.

(** *** One client's traffic and another client's counter *)

Lemma rate_limit_key_inj (a b : string) :
  rate_limit_key a = rate_limit_key b -> a = b.
Proof. unfold rate_limit_key. simpl. intros H. now inversion H. Qed.

Lemma served_cache_cons (env : Env) (request : Request)
      (rest : list (Env * Request)) (c : Cache) :
  served_cache ((env, request) :: rest) c
  = served_cache rest (cache_after (http_middleware env request c)).
Proof.
  unfold served_cache. cbn [serve].
  destruct rest as [|[e2 rq2] rest2]; [reflexivity|].
  cbn [serve]. rewrite last_cons.
  destruct (last (_ :: _)) eqn:El; [reflexivity|].
  apply last_None in El. discriminate.
Qed.

(** What a run does to the cache: nothing, or one write under the key of
    the client it counts. *)
Lemma middleware_cache_after (env : Env) (request : Request) (c : Cache) :
  cache_after (http_middleware env request c) = c
  \/ exists id,
      limiter_identifier request = Some id
      /\ next_value (cache_get c (now env) (rate_limit_key id)) <= MAX_REQUESTS Constants
      /\ cache_after (http_middleware env request c)
         = cache_set c (now env) (rate_limit_key id)
             (next_value (cache_get c (now env) (rate_limit_key id)))
             (WINDOW Constants).
Proof.
  destruct (bypass_path (path request)) eqn:Hp.
  { left. now rewrite middleware_bypass. }
  destruct (body_size_check request) as [e|rq'] eqn:Hb.
  { left. now rewrite (middleware_size_check_raises env request c e). }
  assert (Hid : limiter_identifier request = Some (get_client_identifier rq')).
  { unfold limiter_identifier. now rewrite Hp, Hb. }
  destruct (Z_le_gt_dec
              (next_value (cache_get c (now env)
                             (rate_limit_key (get_client_identifier rq'))))
              (MAX_REQUESTS Constants)) as [Hle|Hgt].
  - right. exists (get_client_identifier rq'). split; [exact Hid|]. split; [exact Hle|].
    now rewrite (middleware_within_limit env request rq' c Hp Hb Hle).
  - left. now rewrite (middleware_over_limit env request rq' c Hp Hb Hgt).
Qed.

(** The events and the outcome of a run depend on the cache only through
    the counter read for the client's key. *)
Lemma middleware_reads_one_counter (env : Env) (request : Request) (c c' : Cache) :
  (forall id, limiter_identifier request = Some id ->
              cache_get c' (now env) (rate_limit_key id)
              = cache_get c (now env) (rate_limit_key id)) ->
  events (http_middleware env request c') = events (http_middleware env request c)
  /\ outcome (http_middleware env request c') = outcome (http_middleware env request c).
Proof.
  intros Hsame.
  destruct (bypass_path (path request)) eqn:Hp.
  { now rewrite !middleware_bypass. }
  destruct (body_size_check request) as [e|rq'] eqn:Hb.
  { now rewrite !(middleware_size_check_raises env request _ e). }
  assert (Hid : limiter_identifier request = Some (get_client_identifier rq')).
  { unfold limiter_identifier. now rewrite Hp, Hb. }
  specialize (Hsame _ Hid).
  destruct (Z_le_gt_dec
              (next_value (cache_get c (now env)
                             (rate_limit_key (get_client_identifier rq'))))
              (MAX_REQUESTS Constants)) as [Hle|Hgt].
  - rewrite (middleware_within_limit env request rq' c Hp Hb Hle).
    rewrite (middleware_within_limit env request rq' c' Hp Hb); rewrite Hsame; [|exact Hle].
    split; reflexivity.
  - rewrite (middleware_over_limit env request rq' c Hp Hb Hgt).
    rewrite (middleware_over_limit env request rq' c' Hp Hb); [|now rewrite Hsame].
    split; reflexivity.
Qed.

Lemma served_cache_frame (other : string) (rs : list (Env * Request)) :
  forall c : Cache,
    Forall (fun er => limiter_identifier (snd er) <> Some other) rs ->
    forall t : Q,
      cache_get (served_cache rs c) t (rate_limit_key other)
      = cache_get c t (rate_limit_key other).
Proof.
  induction rs as [|[e rq] rest IH]; intros c Hall t; [reflexivity|].
  inversion Hall as [|? ? Hrq Hrest]; subst. simpl in Hrq.
  rewrite served_cache_cons, (IH _ Hrest).
  destruct (middleware_cache_after e rq c) as [->|(id & Hid & _ & ->)]; [reflexivity|].
  apply cache_get_set_ne. intros Hkey. apply rate_limit_key_inj in Hkey. congruence.
Qed.

(** X4: clients do not share rate-limit state.  After any sequence of
    requests none of which is counted under the identifier [other]
    (requests of other clients, documentation requests, requests turned
    down by the size guard), the counter of [other] reads as before at
    every time, and a request of [other] is treated - same calls, same
    result - as if that traffic had never happened. *)
Theorem clients_do_not_share_counters
        (other : string) (rs : list (Env * Request)) (c : Cache)
        (env : Env) (request : Request) :
  Forall (fun er => limiter_identifier (snd er) <> Some other) rs ->
  limiter_identifier request = Some other ->
  (forall t : Q,
      cache_get (served_cache rs c) t (rate_limit_key other)
      = cache_get c t (rate_limit_key other))
  /\ events (http_middleware env request (served_cache rs c))
     = events (http_middleware env request c)
  /\ outcome (http_middleware env request (served_cache rs c))
     = outcome (http_middleware env request c).
Proof.
  intros Hall Hid. split; [now apply served_cache_frame|].
  apply middleware_reads_one_counter.
  intros id Hid'. rewrite Hid in Hid'. injection Hid' as <-.
  now apply served_cache_frame.
Qed.

(** *** The counters stay in range *)

Lemma next_value_in_range (c : Cache) (t : Q) (key : string) :
  counters_in_range c -> 1 <= next_value (cache_get c t key).
Proof.
  intros Hc. unfold cache_get.
  destruct (c !! key) as [e|] eqn:E; [|simpl; lia].
  destruct (Qle_bool (expires_at e) t); [simpl; lia|].
  specialize (Hc key e E). simpl in Hc.
  rewrite next_value_succ; lia.
Qed.

Lemma middleware_keeps_range (env : Env) (request : Request) (c : Cache) :
  counters_in_range c ->
  counters_in_range (cache_after (http_middleware env request c))
  /\ Forall write_in_range (events (http_middleware env request c)).
Proof.
  intros Hc.
  destruct (bypass_path (path request)) eqn:Hp.
  { rewrite middleware_bypass by exact Hp. split; [exact Hc|]. repeat constructor. }
  destruct (body_size_check request) as [e|rq'] eqn:Hb.
  { rewrite (middleware_size_check_raises env request c e Hp Hb). split; [exact Hc|]. constructor. }
  destruct (Z_le_gt_dec
              (next_value (cache_get c (now env)
                             (rate_limit_key (get_client_identifier rq'))))
              (MAX_REQUESTS Constants)) as [Hle|Hgt].
  - rewrite (middleware_within_limit env request rq' c Hp Hb Hle). cbn [cache_after events].
    pose proof (next_value_in_range c (now env)
                  (rate_limit_key (get_client_identifier rq')) Hc) as Hpos.
    split.
    + unfold cache_set. apply map_Forall_insert_2; [simpl; lia | exact Hc].
    + destruct (call_next rq'); repeat constructor; simpl; lia.
  - rewrite (middleware_over_limit env request rq' c Hp Hb Hgt). split; [exact Hc|].
    repeat constructor.
Qed.

(** X5: the stored counters never leave the range 1..[MAX_REQUESTS].  If
    every counter in the cache is in that range (as in the empty cache),
    then after any sequence of requests - any clients, paths, sizes and
    arrival times - it still is after every single run, and every cache
    write made on the way stores a value in that range with a time to
    live of [WINDOW]. *)
Theorem counters_stay_in_range (rs : list (Env * Request)) (c : Cache) :
  counters_in_range c ->
  Forall (fun r => counters_in_range (cache_after r)
                   /\ Forall write_in_range (events r))
         (serve rs c).
Proof.
  revert c. induction rs as [|[e rq] rest IH]; intros c Hc; cbn [serve]; [constructor|].
  destruct (middleware_keeps_range e rq c Hc) as [Hc' Hev].
  constructor; [split; assumption|]. now apply IH.
Qed.

(** *** How many requests get through in one window *)

Lemma Qle_bool_false (x y : Q) : Qle_bool x y = false <-> (y < x)%Q.
Proof.
  split; intros H.
  - destruct (Qlt_le_dec y x) as [Hlt|Hle]; [exact Hlt|].
    apply Qle_bool_iff in Hle. congruence.
  - destruct (Qle_bool x y) eqn:E; [|reflexivity].
    apply Qle_bool_iff in E. lra.
Qed.

Lemma handler_calls_cons (r : Run Response) (runs : list (Run Response)) :
  handler_calls (r :: runs)
  = (length (List.filter is_call_next (events r)) + handler_calls runs)%nat.
Proof.
  unfold handler_calls. cbn [map concat].
  now rewrite List.filter_app, length_app.
Qed.

(** With the counter reading [n] throughout the window that opens at
    [t0], the requests of one client arriving in that window are let
    through until the counter reaches the limit. *)
Lemma burst_handler_calls (id : string) (t0 : Q) (rs : list (Env * Request)) :
  forall (c : Cache) (n : Z),
    0 <= n ->
    Forall (fun er => limiter_identifier (snd er) = Some id) rs ->
    within_window_of t0 rs = true ->
    (forall t : Q, (t0 <= t)%Q -> (t < t0 + inject_Z (WINDOW Constants))%Q ->
                   next_value (cache_get c t (rate_limit_key id)) = n + 1) ->
    handler_calls (serve rs c)
    = Nat.min (length rs) (Z.to_nat (MAX_REQUESTS Constants - n)).
Proof.
  induction rs as [|[e rq] rest IH]; intros c n Hn Hall Hwin Hread; [reflexivity|].
  inversion Hall as [|? ? Hrq Hrest]; subst. simpl in Hrq.
  simpl in Hwin. apply andb_prop in Hwin as [Hhead Hwin].
  apply andb_prop in Hhead as [Hlo Hhi].
  apply Qle_bool_iff in Hlo. apply negb_true_iff, Qle_bool_false in Hhi.
  destruct (limiter_identifier_inv _ _ Hrq) as (Hp & rq' & Hb & Hid).
  pose proof (Hread (now e) Hlo Hhi) as Hcount.
  cbn [serve]. rewrite handler_calls_cons.
  destruct (Z_le_gt_dec (n + 1) (MAX_REQUESTS Constants)) as [Hle|Hgt].
  - rewrite (middleware_within_limit e rq rq' c Hp Hb); rewrite Hid, Hcount; [|exact Hle].
    cbn [events cache_after].
    rewrite (IH _ (n + 1)); try assumption; try lia.
    + replace (length (List.filter is_call_next
                         ([CacheGet (rate_limit_key id);
                           CacheSet (rate_limit_key id) (n + 1) (WINDOW Constants);
                           CallNext rq']
                          ++ match call_next rq' with
                             | inl _ => []
                             | inr _ => [IncrementRequest
                                           ((perf_end e - perf_start e) * 1000)%Q]
                             end)))
        with 1%nat by (destruct (call_next rq'); reflexivity).
      cbn [length]. lia.
    + intros t Ht0 Ht1. rewrite cache_get_set_eq.
      assert (Hlive : Qle_bool (now e + inject_Z (WINDOW Constants)) t = false)
        by (apply Qle_bool_false; lra).
      rewrite Hlive. rewrite next_value_succ; lia.
  - rewrite (middleware_over_limit e rq rq' c Hp Hb); [|rewrite Hid, Hcount; lia].
    cbn [events cache_after].
    rewrite (IH c n); try assumption.
    cbn [length List.filter is_call_next]. lia.
Qed.

(** X6: the limit is kept.  When the requests of one client all arrive
    within one window - less than [WINDOW] seconds after the first, which
    finds no live counter - the downstream handler is called for exactly
    min(number of requests, [MAX_REQUESTS]) of them (none when
    [MAX_REQUESTS] is zero or negative), whether or not the handler
    itself succeeds. *)
Theorem at_most_limit_handled_per_window
        (id : string) (rs : list (Env * Request)) (c : Cache) :
  Forall (fun er => limiter_identifier (snd er) = Some id) rs ->
  fresh_window c (rate_limit_key id) rs = true ->
  burst rs = true ->
  handler_calls (serve rs c)
  = Nat.min (length rs) (Z.to_nat (MAX_REQUESTS Constants)).
Proof.
  intros Hall Hfresh Hburst.
  destruct rs as [|[e0 rq0] rest]; [reflexivity|].
  unfold burst in Hburst. simpl in Hfresh.
  rewrite (burst_handler_calls id (now e0) _ c 0); try assumption; try lia.
  intros t Ht0 _. unfold cache_get in *.
    destruct (c !! rate_limit_key id) as [entry|]; [|reflexivity].
    destruct (Qle_bool (expires_at entry) (now e0)) eqn:Hexp; [|discriminate].
    apply Qle_bool_iff in Hexp.
    assert (Hexp' : Qle_bool (expires_at entry) t = true) by (apply Qle_bool_iff; lra).
    now rewrite Hexp'.
Qed.

(** *** A client at the limit *)

Lemma served_before_deadline (id : string) (d : Q) (rs : list (Env * Request)) (c : Cache) :
  1 <= MAX_REQUESTS Constants ->
  c !! rate_limit_key id
  = Some {| value := MAX_REQUESTS Constants; expires_at := d |} ->
  Forall (fun er => limiter_identifier (snd er) = Some id) rs ->
  before d rs = true ->
  Forall (fun r => r = MkRun c [CacheGet (rate_limit_key id)] (inl too_many_requests))
         (serve rs c).
Proof.
  intros Hmax Hentry. induction rs as [|[e rq] rest IH]; intros Hall Hbefore;
    cbn [serve]; [constructor|].
  inversion Hall as [|? ? Hrq Hrest]; subst. simpl in Hrq.
  simpl in Hbefore. apply andb_prop in Hbefore as [Hhead Hbefore].
  apply negb_true_iff in Hhead.
  destruct (limiter_identifier_inv _ _ Hrq) as (Hp & rq' & Hb & Hid).
  assert (Hrun : http_middleware e rq c
                 = MkRun c [CacheGet (rate_limit_key id)] (inl too_many_requests)).
  { rewrite (middleware_over_limit e rq rq' c Hp Hb); rewrite Hid; [reflexivity|].
    unfold cache_get. rewrite Hentry. cbn [expires_at value]. rewrite Hhead.
    rewrite next_value_succ; lia. }
  rewrite Hrun. cbn [cache_after]. constructor; [reflexivity | now apply IH].
Qed.

(** X7: rejections do not prolong the lock-out.  With a client's counter
    at [MAX_REQUESTS] and its deadline at [d], every request of that
    client arriving before [d] is answered 429 after a single cache read
    and leaves the cache exactly as it was - however many such requests
    there are.  The first request arriving at [d] or later is let through
    and counted as 1. *)
Theorem lockout_ends_at_the_deadline
        (id : string) (d : Q) (rs : list (Env * Request)) (c : Cache) :
  1 <= MAX_REQUESTS Constants ->
  c !! rate_limit_key id
  = Some {| value := MAX_REQUESTS Constants; expires_at := d |} ->
  Forall (fun er => limiter_identifier (snd er) = Some id) rs ->
  before d rs = true ->
  Forall (fun r => raised r = Some too_many_requests
                   /\ events r = [CacheGet (rate_limit_key id)])
         (serve rs c)
  /\ served_cache rs c = c
  /\ forall (env : Env) (request : Request),
      limiter_identifier request = Some id ->
      Qle_bool d (now env) = true ->
      rate_rejected env request (served_cache rs c) = false
      /\ In (CacheSet (rate_limit_key id) 1 (WINDOW Constants))
            (events (http_middleware env request (served_cache rs c))).
Proof.
  intros Hmax Hentry Hall Hbefore.
  pose proof (served_before_deadline id d rs c Hmax Hentry Hall Hbefore) as Hruns.
  assert (Hcache : served_cache rs c = c).
  { unfold served_cache. destruct (last (serve rs c)) as [r|] eqn:El; [|reflexivity].
    rewrite Forall_forall in Hruns.
    rewrite (Hruns r); [reflexivity|]. eapply last_Some_elem_of; eassumption. }
  split; [|split; [exact Hcache|]].
  - eapply Forall_impl; [exact Hruns|]. intros r ->. split; reflexivity.
  - intros env request Hid Hlate. rewrite Hcache.
    assert (Hcount : next_value (cache_get c (now env) (rate_limit_key id)) = 1).
    { unfold cache_get. rewrite Hentry. cbn [expires_at]. now rewrite Hlate. }
    destruct (limiter_identifier_inv _ _ Hid) as (Hp & rq' & Hb & Hrq').
    split.
    + unfold rate_rejected. rewrite Hid, Hcount, Z.gtb_ltb. apply Z.ltb_ge. lia.
    + rewrite (middleware_within_limit env request rq' c Hp Hb); rewrite Hrq', Hcount; [|lia].
      cbn [events]. simpl. right. left. reflexivity.
Qed.

(** *** What the monitor sees *)


(** *** Errors raised by the middleware itself *)



(** *** The rate-limit headers on a response *)

Lemma count_drop_key_eq (k : string) (hs : Headers) :
  length (List.filter (fun kv => String.eqb (fst kv) k) (drop_key k hs)) = 0%nat.
Proof.
  induction hs as [|[k' v'] hs IH]; [reflexivity|].
  unfold drop_key in *. simpl.
  destruct (String.eqb_spec k' k) as [->|Hne]; simpl; [exact IH|].
  destruct (String.eqb_spec k' k); [contradiction | exact IH].
Qed.

Lemma count_drop_key_ne (k k2 : string) (hs : Headers) :
  k <> k2 ->
  length (List.filter (fun kv => String.eqb (fst kv) k2) (drop_key k hs))
  = length (List.filter (fun kv => String.eqb (fst kv) k2) hs).
Proof.
  intros Hne. induction hs as [|[k' v'] hs IH]; [reflexivity|].
  unfold drop_key in *. simpl.
  destruct (String.eqb_spec k' k) as [->|Hk]; simpl.
  - destruct (String.eqb_spec k k2); [contradiction | exact IH].
  - destruct (String.eqb k' k2); simpl; now rewrite IH.
Qed.

Lemma count_replace_first_eq (k v : string) (hs hs' : Headers) :
  replace_first k v hs = Some hs' ->
  length (List.filter (fun kv => String.eqb (fst kv) k) hs') = 1%nat.
Proof.
  revert hs'. induction hs as [|[k' v'] hs IH]; simpl; intros hs' H; [discriminate|].
  destruct (String.eqb_spec k' k) as [->|Hk].
  - injection H as <-. simpl. rewrite String.eqb_refl. simpl.
    now rewrite count_drop_key_eq.
  - destruct (replace_first k v hs) as [hs0|]; simpl in H; [|discriminate].
    injection H as <-. simpl.
    destruct (String.eqb_spec k' k); [contradiction | now apply IH].
Qed.

Lemma count_replace_first_ne (k v k2 : string) (hs hs' : Headers) :
  replace_first k v hs = Some hs' -> k <> k2 ->
  length (List.filter (fun kv => String.eqb (fst kv) k2) hs')
  = length (List.filter (fun kv => String.eqb (fst kv) k2) hs).
Proof.
  revert hs'. induction hs as [|[k' v'] hs IH]; simpl; intros hs' H Hne; [discriminate|].
  destruct (String.eqb_spec k' k) as [->|Hk].
  - injection H as <-. simpl.
    destruct (String.eqb_spec k k2); [contradiction|].
    now apply count_drop_key_ne.
  - destruct (replace_first k v hs) as [hs0|]; simpl in H; [|discriminate].
    injection H as <-. simpl.
    destruct (String.eqb k' k2); simpl; now rewrite (IH hs0).
Qed.

Lemma count_replace_first_None (k v : string) (hs : Headers) :
  replace_first k v hs = None ->
  length (List.filter (fun kv => String.eqb (fst kv) k) hs) = 0%nat.
Proof.
  induction hs as [|[k' v'] hs IH]; simpl; intros H; [reflexivity|].
  destruct (String.eqb k' k); [discriminate|].
  destruct (replace_first k v hs); [discriminate | now apply IH].
Qed.

Lemma header_count_set_eq (hs : Headers) (key v : string) :
  header_count (headers_set hs key v) key = 1%nat.
Proof.
  unfold header_count, headers_set.
  destruct (replace_first (Py.lower key) v hs) as [hs'|] eqn:E.
  - eapply count_replace_first_eq; eassumption.
  - rewrite List.filter_app, length_app, (count_replace_first_None _ _ _ E).
    simpl. now rewrite String.eqb_refl.
Qed.

Lemma header_count_set_ne (hs : Headers) (key key' v : string) :
  Py.lower key <> Py.lower key' ->
  header_count (headers_set hs key v) key' = header_count hs key'.
Proof.
  intros Hne. unfold header_count, headers_set.
  destruct (replace_first (Py.lower key) v hs) as [hs'|] eqn:E.
  - eapply count_replace_first_ne; eassumption.
  - rewrite List.filter_app, length_app. simpl.
    destruct (String.eqb_spec (Py.lower key) (Py.lower key')); [contradiction|].
    simpl. lia.
Qed.

Ltac other_name := vm_compute; discriminate.

(** X10: lines 178-181 touch the three rate-limit headers and nothing
    else.  After them each of X-RateLimit-Limit, X-RateLimit-Remaining
    and X-RateLimit-Reset is present exactly once - also when the
    handler's response already carried such headers, even several times -
    while the status code, the body, and the value and the number of
    occurrences of every other header are as the handler left them. *)
Theorem rate_limit_headers_touch_only_their_names
        (current : Z) (response : Response) :
  status_code (rate_limit_headers current response) = status_code response
  /\ body (rate_limit_headers current response) = body response
  /\ (forall key, In key rate_limit_header_names ->
                  header_count (headers (rate_limit_headers current response)) key = 1%nat)
  /\ (forall key,
         ~ In (Py.lower key) (map Py.lower rate_limit_header_names) ->
         headers_get (headers (rate_limit_headers current response)) key
         = headers_get (headers response) key
         /\ header_count (headers (rate_limit_headers current response)) key
            = header_count (headers response) key).
Proof.
  split; [reflexivity|]. split; [reflexivity|]. split.
  - intros key Hkey. unfold rate_limit_headers, set_header; cbn [headers].
    destruct Hkey as [<-|[<-|[<-|[]]]].
    + rewrite !header_count_set_ne by other_name. apply header_count_set_eq.
    + rewrite header_count_set_ne by other_name. apply header_count_set_eq.
    + apply header_count_set_eq.
  - intros key Hkey. unfold rate_limit_headers, set_header; cbn [headers].
    assert (H1 : Py.lower "X-RateLimit-Limit" <> Py.lower key)
      by (intros Heq; apply Hkey; rewrite <- Heq; simpl; tauto).
    assert (H2 : Py.lower "X-RateLimit-Remaining" <> Py.lower key)
      by (intros Heq; apply Hkey; rewrite <- Heq; simpl; tauto).
    assert (H3 : Py.lower "X-RateLimit-Reset" <> Py.lower key)
      by (intros Heq; apply Hkey; rewrite <- Heq; simpl; tauto).
    split.
    + now rewrite !headers_get_set_ne by assumption.
    + now rewrite !header_count_set_ne by assumption.
Qed.

(** *** The limit amid other traffic *)

Lemma writes_to_cons (key : string) (r : Run Response) (runs : list (Run Response)) :
  writes_to key (r :: runs)
  = (length (List.filter (is_write_to key) (events r)) + writes_to key runs)%nat.
Proof.
  unfold writes_to. cbn [map concat].
  now rewrite List.filter_app, length_app.
Qed.

(** A request that is not counted under [id] neither writes the counter
    of [id] nor changes what is read for it. *)
Lemma middleware_leaves_other_counter
      (id : string) (env : Env) (request : Request) (c : Cache) :
  limiter_identifier request <> Some id ->
  List.filter (is_write_to (rate_limit_key id)) (events (http_middleware env request c)) = []
  /\ forall t : Q,
      cache_get (cache_after (http_middleware env request c)) t (rate_limit_key id)
      = cache_get c t (rate_limit_key id).
Proof.
  intros Hother.
  destruct (bypass_path (path request)) eqn:Hp.
  { rewrite middleware_bypass by exact Hp. split; reflexivity. }
  destruct (body_size_check request) as [e|rq'] eqn:Hb.
  { rewrite (middleware_size_check_raises env request c e Hp Hb). split; reflexivity. }
  assert (Hkey : rate_limit_key (get_client_identifier rq') <> rate_limit_key id).
  { intros Hkey. apply rate_limit_key_inj in Hkey. apply Hother.
    unfold limiter_identifier. now rewrite Hp, Hb, Hkey. }
  destruct (Z_le_gt_dec
              (next_value (cache_get c (now env)
                             (rate_limit_key (get_client_identifier rq'))))
              (MAX_REQUESTS Constants)) as [Hle|Hgt].
  - rewrite (middleware_within_limit env request rq' c Hp Hb Hle). cbn [events cache_after].
    split.
    + cbn [List.app List.filter is_write_to].
      destruct (String.eqb_spec (rate_limit_key (get_client_identifier rq'))
                  (rate_limit_key id)); [contradiction|].
      destruct (call_next rq'); reflexivity.
    + intros t. now apply cache_get_set_ne.
  - rewrite (middleware_over_limit env request rq' c Hp Hb Hgt). split; reflexivity.
Qed.

Lemma mixed_traffic_writes (id : string) (t0 : Q) (rs : list (Env * Request)) :
  forall (c : Cache) (n : Z),
    0 <= n ->
    within_window_of t0 (counted_under id rs) = true ->
    (counted_under id rs <> [] ->
     forall t : Q, (t0 <= t)%Q -> (t < t0 + inject_Z (WINDOW Constants))%Q ->
                   next_value (cache_get c t (rate_limit_key id)) = n + 1) ->
    writes_to (rate_limit_key id) (serve rs c)
    = Nat.min (length (counted_under id rs)) (Z.to_nat (MAX_REQUESTS Constants - n)).
Proof.
  induction rs as [|[e rq] rest IH]; intros c n Hn Hwin Hread; [reflexivity|].
  cbn [serve]. rewrite writes_to_cons.
  cbn [counted_under List.filter snd] in Hwin, Hread |- *.
  fold (counted_under id rest) in Hwin, Hread |- *.
  destruct (bool_decide (limiter_identifier rq = Some id)) eqn:Hdec.
  - apply bool_decide_eq_true in Hdec.
    assert (Hread' : forall t : Q,
               (t0 <= t)%Q -> (t < t0 + inject_Z (WINDOW Constants))%Q ->
               next_value (cache_get c t (rate_limit_key id)) = n + 1)
      by (apply Hread; discriminate).
    simpl in Hwin. apply andb_prop in Hwin as [Hhead Hwin].
    apply andb_prop in Hhead as [Hlo Hhi].
    apply Qle_bool_iff in Hlo. apply negb_true_iff, Qle_bool_false in Hhi.
    destruct (limiter_identifier_inv _ _ Hdec) as (Hp & rq' & Hb & Hid).
    pose proof (Hread' (now e) Hlo Hhi) as Hcount.
    destruct (Z_le_gt_dec (n + 1) (MAX_REQUESTS Constants)) as [Hle|Hgt].
    + rewrite (middleware_within_limit e rq rq' c Hp Hb); rewrite Hid, Hcount; [|exact Hle].
      cbn [events cache_after].
      rewrite (IH _ (n + 1)); try assumption; try lia.
      * replace (length (List.filter (is_write_to (rate_limit_key id))
                           ([CacheGet (rate_limit_key id);
                             CacheSet (rate_limit_key id) (n + 1) (WINDOW Constants);
                             CallNext rq']
                            ++ match call_next rq' with
                               | inl _ => []
                               | inr _ => [IncrementRequest
                                             ((perf_end e - perf_start e) * 1000)%Q]
                               end)))
          with 1%nat
          by (cbn [List.app List.filter is_write_to]; rewrite String.eqb_refl;
              destruct (call_next rq'); reflexivity).
        cbn [length]. lia.
      * intros _ t Ht0 Ht1. rewrite cache_get_set_eq.
        assert (Hlive : Qle_bool (now e + inject_Z (WINDOW Constants)) t = false)
          by (apply Qle_bool_false; lra).
        rewrite Hlive. rewrite next_value_succ; lia.
    + rewrite (middleware_over_limit e rq rq' c Hp Hb); [|rewrite Hid, Hcount; lia].
      cbn [events cache_after].
      rewrite (IH c n); try assumption; [|intros _; exact Hread'].
      cbn [length List.filter is_write_to]. lia.
  - apply bool_decide_eq_false in Hdec.
    destruct (middleware_leaves_other_counter id e rq c Hdec) as [Hnone Hsame].
    rewrite Hnone. cbn [length]. rewrite Nat.add_0_l.
    apply IH; try assumption.
    intros Hne t Ht0 Ht1. rewrite Hsame. now apply Hread.
Qed.

(** X11: the limit is kept per client amid any other traffic.  Take any
    sequence of requests and a client [id] whose counted requests all
    arrive within one window - less than [WINDOW] seconds after the first
    of them, which finds no live counter.  Then the counter of [id] is
    written - that is, a request of [id] is let through to the handler -
    exactly min(number of its counted requests, [MAX_REQUESTS]) times,
    whatever requests of other clients, documentation requests or
    oversized requests come in between. *)
Theorem limit_holds_amid_other_traffic
        (id : string) (rs : list (Env * Request)) (c : Cache) :
  fresh_window c (rate_limit_key id) (counted_under id rs) = true ->
  burst (counted_under id rs) = true ->
  writes_to (rate_limit_key id) (serve rs c)
  = Nat.min (length (counted_under id rs)) (Z.to_nat (MAX_REQUESTS Constants)).
Proof.
  intros Hfresh Hburst.
  destruct (counted_under id rs) as [|[e0 rq0] rest] eqn:Hcounted.
  - rewrite (mixed_traffic_writes id 0 rs c 0); rewrite ?Hcounted;
      [reflexivity | lia | reflexivity | congruence].
  - unfold burst in Hburst. simpl in Hfresh.
    rewrite (mixed_traffic_writes id (now e0) rs c 0); rewrite ?Hcounted;
      [now rewrite Z.sub_0_r | lia | exact Hburst |].
    intros _ t Ht0 _. unfold cache_get in *.
    destruct (c !! rate_limit_key id) as [entry|]; [|reflexivity].
    destruct (Qle_bool (expires_at entry) (now e0)) eqn:Hexp; [|discriminate].
    apply Qle_bool_iff in Hexp.
    assert (Hexp' : Qle_bool (expires_at entry) t = true) by (apply Qle_bool_iff; lra).
    now rewrite Hexp'.
Qed.

End Coverage.

(** ** The further properties on concrete runs *)

(** A body of 1000 bytes streamed in two chunks. *)
Lemma streamed_body_within_limit_is_buffered_witness :
  Py.truthy_str
    (headers_get (req_headers (Sample.streamed [repeat Byte.x00 600; repeat Byte.x00 400]))
       "content-length")
  = false
  /\ total_size (stream (Sample.streamed [repeat Byte.x00 600; repeat Byte.x00 400]))
     <= MAX_BODY_SIZE (Constants (Deployment := Sample.app 5 60))
  /\ body_size_check (app := Sample.app 5 60)
       (Sample.streamed [repeat Byte.x00 600; repeat Byte.x00 400])
     = inr (set_body (Sample.streamed [repeat Byte.x00 600; repeat Byte.x00 400])
              (repeat Byte.x00 1000))
  /\ In (CallNext (set_body (Sample.streamed [repeat Byte.x00 600; repeat Byte.x00 400])
                     (repeat Byte.x00 1000)))
        (events (http_middleware (app := Sample.app 5 60) (Sample.env 0)
                   (Sample.streamed [repeat Byte.x00 600; repeat Byte.x00 400]) ∅)).
Proof.
  split; [reflexivity|]. split; [vm_compute; discriminate|].
  destruct (streamed_body_within_limit_is_buffered (app := Sample.app 5 60)
              (Sample.env 0)
              (Sample.streamed [repeat Byte.x00 600; repeat Byte.x00 400]) ∅)
    as [Hbody Hcall]; [reflexivity | vm_compute; discriminate |].
  split; [exact Hbody|]. apply Hcall; reflexivity.
Defined.

(** A body of 1205 bytes streamed in three chunks; the second crosses the
    limit of 1024. *)
Lemma streamed_body_over_limit_is_rejected_witness :
  Py.truthy_str
    (headers_get
       (req_headers
          (Sample.streamed [repeat Byte.x00 600; repeat Byte.x00 600; repeat Byte.x00 5]))
       "content-length")
  = false
  /\ 0 <= MAX_BODY_SIZE (Constants (Deployment := Sample.app 5 60))
  /\ total_size
       (stream (Sample.streamed [repeat Byte.x00 600; repeat Byte.x00 600; repeat Byte.x00 5]))
     > MAX_BODY_SIZE (Constants (Deployment := Sample.app 5 60))
  /\ http_middleware (app := Sample.app 5 60) (Sample.env 0)
       (Sample.streamed [repeat Byte.x00 600; repeat Byte.x00 600; repeat Byte.x00 5])
       (Sample.counted 3)
     = MkRun (Sample.counted 3) [] (inl (too_large (app := Sample.app 5 60))).
Proof.
  split; [reflexivity|]. split; [vm_compute; discriminate|]. split; [reflexivity|].
  apply (proj2 (streamed_body_over_limit_is_rejected (app := Sample.app 5 60)
                  (Sample.env 0)
                  (Sample.streamed
                     [repeat Byte.x00 600; repeat Byte.x00 600; repeat Byte.x00 5])
                  (Sample.counted 3) eq_refl
                  ltac:(vm_compute; discriminate)));
    reflexivity.
Defined.

(** A post that declares 1024 bytes and streams 2000 passes the guard
    unread. *)
Lemma declared_length_decides_alone_witness :
  headers_get (req_headers (Sample.declaring "1024" [repeat Byte.x00 2000])) "content-length"
  = Some "1024"
  /\ Py.int (max_str_digits (Deployment := Sample.app 5 60)) "1024" = Some 1024
  /\ body_size_check (app := Sample.app 5 60) (Sample.declaring "1024" [repeat Byte.x00 2000])
     = inr (Sample.declaring "1024" [repeat Byte.x00 2000]).
Proof.
  split; [reflexivity|]. split; [reflexivity|].
  apply (proj1 (proj2 (declared_length_decides_alone (app := Sample.app 5 60)
                         (Sample.declaring "1024" [repeat Byte.x00 2000])
                         "1024" 1024 eq_refl eq_refl))).
  vm_compute; discriminate.
Defined.

(** Client 10.0.0.2 uses up its quota of 5; client 10.0.0.1 is served as
    on an empty cache. *)
Lemma clients_do_not_share_counters_witness :
  Forall (fun er => limiter_identifier (app := Sample.app 5 60) (snd er) <> Some "10.0.0.1")
         (Sample.posts_from "10.0.0.2" [0; 1; 2; 3; 4; 5]%Q)
  /\ limiter_identifier (app := Sample.app 5 60) Sample.post = Some "10.0.0.1"
  /\ events (http_middleware (app := Sample.app 5 60) (Sample.env 6) Sample.post
               (served_cache (app := Sample.app 5 60)
                  (Sample.posts_from "10.0.0.2" [0; 1; 2; 3; 4; 5]%Q) ∅))
     = events (http_middleware (app := Sample.app 5 60) (Sample.env 6) Sample.post ∅)
  /\ outcome (http_middleware (app := Sample.app 5 60) (Sample.env 6) Sample.post
                (served_cache (app := Sample.app 5 60)
                   (Sample.posts_from "10.0.0.2" [0; 1; 2; 3; 4; 5]%Q) ∅))
     = outcome (http_middleware (app := Sample.app 5 60) (Sample.env 6) Sample.post ∅).
Proof.
  assert (Hothers : Forall (fun er => limiter_identifier (app := Sample.app 5 60) (snd er)
                                      <> Some "10.0.0.1")
                           (Sample.posts_from "10.0.0.2" [0; 1; 2; 3; 4; 5]%Q))
    by (repeat (constructor; [vm_compute; discriminate|]); constructor).
  split; [exact Hothers|]. split; [reflexivity|].
  exact (proj2 (clients_do_not_share_counters (app := Sample.app 5 60) "10.0.0.1"
                  (Sample.posts_from "10.0.0.2" [0; 1; 2; 3; 4; 5]%Q) ∅
                  (Sample.env 6) Sample.post Hothers eq_refl)).
Defined.

(** Seven posts on an empty cache. *)
Lemma counters_stay_in_range_witness :
  counters_in_range (app := Sample.app 5 60) ∅
  /\ Forall (fun r => counters_in_range (app := Sample.app 5 60) (cache_after r)
                      /\ Forall (write_in_range (app := Sample.app 5 60)) (events r))
            (serve (app := Sample.app 5 60)
               (Sample.posts [0; 1; 2; 3; 4; 5; 6]%Q) ∅).
Proof.
  split; [apply map_Forall_empty|].
  apply (counters_stay_in_range (app := Sample.app 5 60)
           (Sample.posts [0; 1; 2; 3; 4; 5; 6]%Q) ∅).
  apply map_Forall_empty.
Defined.

(** Seven posts within 59 seconds under a limit of 5: five reach the
    handler. *)
Lemma at_most_limit_handled_per_window_witness :
  fresh_window ∅ (rate_limit_key "10.0.0.1")
    (Sample.posts [0; 10; 20; 30; 40; 50; 59]%Q) = true
  /\ burst (app := Sample.app 5 60) (Sample.posts [0; 10; 20; 30; 40; 50; 59]%Q) = true
  /\ handler_calls (serve (app := Sample.app 5 60)
                      (Sample.posts [0; 10; 20; 30; 40; 50; 59]%Q) ∅)
     = 5%nat.
Proof.
  split; [reflexivity|]. split; [reflexivity|].
  apply (at_most_limit_handled_per_window (app := Sample.app 5 60) "10.0.0.1"
           (Sample.posts [0; 10; 20; 30; 40; 50; 59]%Q) ∅).
  - repeat constructor.
  - reflexivity.
  - reflexivity.
Defined.

(** The counter at 5 with its deadline at 60: posts at 10, 20 and 59 are
    rejected and change nothing; a post at 60 is counted as 1. *)
Lemma lockout_ends_at_the_deadline_witness :
  1 <= MAX_REQUESTS (Constants (Deployment := Sample.app 5 60))
  /\ Sample.counted 5 !! rate_limit_key "10.0.0.1"
     = Some {| value := 5; expires_at := (0 + inject_Z 60)%Q |}
  /\ before (0 + inject_Z 60)%Q (Sample.posts [10; 20; 59]%Q) = true
  /\ served_cache (app := Sample.app 5 60) (Sample.posts [10; 20; 59]%Q) (Sample.counted 5)
     = Sample.counted 5
  /\ In (CacheSet (rate_limit_key "10.0.0.1") 1 60)
        (events (http_middleware (app := Sample.app 5 60) (Sample.env 60) Sample.post
                   (served_cache (app := Sample.app 5 60)
                      (Sample.posts [10; 20; 59]%Q) (Sample.counted 5)))).
Proof.
  split; [vm_compute; discriminate|]. split; [reflexivity|]. split; [reflexivity|].
  destruct (lockout_ends_at_the_deadline (app := Sample.app 5 60) "10.0.0.1"
              (0 + inject_Z 60)%Q (Sample.posts [10; 20; 59]%Q) (Sample.counted 5))
    as (_ & Hcache & Hnext).
  - vm_compute; discriminate.
  - reflexivity.
  - repeat constructor.
  - reflexivity.
  - split; [exact Hcache|].
    exact (proj2 (Hnext (Sample.env 60) Sample.post eq_refl eq_refl)).
Defined.


(** A response that came with two X-RateLimit-Limit headers leaves with
    one, and keeps its Vary header. *)
Lemma rate_limit_headers_touch_only_their_names_witness :
  header_count (headers (rate_limit_headers (app := Sample.app 5 60) 3 Sample.own_headers))
    "X-RateLimit-Limit"
  = 1%nat
  /\ headers_get (headers (rate_limit_headers (app := Sample.app 5 60) 3 Sample.own_headers))
       "Vary"
     = Some "Origin".
Proof.
  destruct (rate_limit_headers_touch_only_their_names (app := Sample.app 5 60)
              3 Sample.own_headers) as (_ & _ & Hone & Hother).
  split.
  - apply Hone. simpl. tauto.
  - apply (proj1 (Hother "Vary" ltac:(vm_compute; intuition discriminate))).
Defined.

(** Four counted posts of 10.0.0.1 amid other traffic, under a limit of
    2: its counter is written twice. *)
Lemma limit_holds_amid_other_traffic_witness :
  fresh_window ∅ (rate_limit_key "10.0.0.1")
    (counted_under (app := Sample.app 2 60) "10.0.0.1" Sample.mixed) = true
  /\ burst (app := Sample.app 2 60)
       (counted_under (app := Sample.app 2 60) "10.0.0.1" Sample.mixed) = true
  /\ length (counted_under (app := Sample.app 2 60) "10.0.0.1" Sample.mixed) = 4%nat
  /\ writes_to (rate_limit_key "10.0.0.1") (serve (app := Sample.app 2 60) Sample.mixed ∅)
     = 2%nat.
Proof.
  split; [reflexivity|]. split; [reflexivity|]. split; [reflexivity|].
  apply (limit_holds_amid_other_traffic (app := Sample.app 2 60) "10.0.0.1"
           Sample.mixed ∅);
    reflexivity.
Defined.
